(** * Workflow harvesting tools: a shallow embedding and its properties

    The development follows the Python sources under [src/tools]:

    - [crawlers/github_workflow_crawler.py]  (hosted-tree crawler)
    - [crawlers/comfyui_crawler.py]          (web-page crawler)
    - [parse_workflow_templates.py]          (local folder of images)
    - [civitai_image_search.py]              (catalog search and download)

    Python values are modelled as the code has them: [str] as [string]
    (a sequence of bytes; case mapping is ASCII), [int] as [Z], dictionaries
    as [gmap], sets as [gset], exceptions as an explicit result type, and
    the file system and the network as explicit state and an explicit
    remote world.  Functions of Python's standard library and of third-party
    packages (json, base64, PIL, urllib.parse) are an interface, [PyLib],
    that the embedded code is parameterised by.  Requests, directory
    creations and writes are recorded in a trace; of the printed and logged
    lines the trace keeps the ones that report an outcome, and leaves out
    progress messages. *)

From Stdlib Require Import ZArith Ascii String List Lia Bool.
From stdpp Require Import gmap strings list pretty.

Local Open Scope string_scope.
Local Open Scope list_scope.
Local Open Scope Z_scope.

Set Warnings "-register-all".

(** ** Python string primitives *)

Module PyStr.

Definition is_upper (c : ascii) : bool :=
  let n := nat_of_ascii c in (65 <=? n)%nat && (n <=? 90)%nat.

Definition lower_ascii (c : ascii) : ascii :=
  if is_upper c then ascii_of_nat (nat_of_ascii c + 32) else c.

(** [s.lower()] *)
Fixpoint lower (s : string) : string :=
  match s with
  | EmptyString => EmptyString
  | String c s' => String (lower_ascii c) (lower s')
  end.

(** [s.startswith(p)] *)
Definition startswith (s p : string) : bool := String.prefix p s.

(** [s.endswith(suf)]: some suffix of [s] is [suf]. *)
Fixpoint endswith (s suf : string) : bool :=
  String.eqb s suf ||
  match s with
  | EmptyString => false
  | String _ s' => endswith s' suf
  end.

(** Index of the last occurrence of [c], counted from the left. *)
Fixpoint rfind_nat (s : string) (c : ascii) : option nat :=
  match s with
  | EmptyString => None
  | String a s' =>
      match rfind_nat s' c with
      | Some i => Some (S i)
      | None => if Ascii.eqb a c then Some O else None
      end
  end.

(** [s.rfind(c)], [-1] when [c] does not occur. *)
Definition rfind (s : string) (c : ascii) : Z :=
  match rfind_nat s c with
  | Some i => Z.of_nat i
  | None => -1
  end.

Fixpoint drop (n : nat) (s : string) : string :=
  match n, s with
  | O, _ => s
  | S n', String _ s' => drop n' s'
  | S _, EmptyString => EmptyString
  end.

Fixpoint take (n : nat) (s : string) : string :=
  match n, s with
  | O, _ => EmptyString
  | S n', String c s' => String c (take n' s')
  | S _, EmptyString => EmptyString
  end.

(** [s[i:]] and [s[:i]] for an index [i >= 0] (a negative [i] does not
    occur in the embedded code: every index is [rfind + 1] or a found
    position). *)
Definition slice_from (s : string) (i : Z) : string := drop (Z.to_nat i) s.
Definition slice_to (s : string) (i : Z) : string := take (Z.to_nat i) s.
Definition slice (s : string) (i j : Z) : string := slice_from (slice_to s j) i.

(** [s.split(c)] for a one-character separator. *)
Fixpoint split (s : string) (c : ascii) : list string :=
  match s with
  | EmptyString => [EmptyString]
  | String a s' =>
      if Ascii.eqb a c then EmptyString :: split s' c
      else match split s' c with
           | w :: ws => String a w :: ws
           | [] => [String a EmptyString]
           end
  end.

(** Truth value of a [str]: the empty string is falsy. *)
Definition truthy (s : string) : bool :=
  match s with EmptyString => false | _ => true end.

(** The class of the characters other than [c]. *)
Definition is_not (c : ascii) : ascii -> bool := fun x => negb (Ascii.eqb x c).

(** Every character of [s] satisfies [p]. *)
Fixpoint all_chars (p : ascii -> bool) (s : string) : bool :=
  match s with
  | EmptyString => true
  | String c s' => p c && all_chars p s'
  end.

End PyStr.

(** ** posixpath and pathlib *)

Module PosixPath.
Import PyStr.

(** [os.path.basename(p)]: [i = p.rfind('/') + 1; return p[i:]]. *)
Definition basename (p : string) : string :=
  slice_from p (rfind p "/" + 1).

Definition is_dot (c : ascii) : bool := Ascii.eqb c ".".

(** [os.path.splitext(p)] (genericpath._splitext with sep '/', extsep '.'):
    the extension starts at the last dot, provided that dot comes after the
    last separator and some character between the two is not a dot. *)
Definition splitext (p : string) : string * string :=
  let sepIndex := rfind p "/" in
  let dotIndex := rfind p "." in
  if dotIndex >? sepIndex then
    if all_chars is_dot (slice p (sepIndex + 1) dotIndex)
    then (p, EmptyString)
    else (slice_to p dotIndex, slice_from p dotIndex)
  else (p, EmptyString).

(** [os.path.join(a, b)] *)
Definition join (a b : string) : string :=
  if startswith b "/" then b
  else if negb (truthy a) || endswith a "/" then a +:+ b
  else a +:+ "/" +:+ b.

(** [PurePosixPath(p).name]: the last component, empty and "." components
    dropped by the parser. *)
Definition path_name (p : string) : string :=
  List.last
    (List.filter (fun w => negb (String.eqb w "" || String.eqb w ".")) (split p "/"))
    EmptyString.

(** [PurePosixPath(p).suffix] and [.stem]:
    [i = name.rfind('.')]; the suffix is [name[i:]] when
    [0 < i < len(name) - 1], and empty otherwise. *)
Definition suffix (p : string) : string :=
  let name := path_name p in
  let i := rfind name "." in
  if (0 <? i) && (i <? Z.of_nat (String.length name) - 1)
  then slice_from name i else EmptyString.

Definition stem (p : string) : string :=
  let name := path_name p in
  let i := rfind name "." in
  if (0 <? i) && (i <? Z.of_nat (String.length name) - 1)
  then slice_to name i else name.

(** A file name [stem.ext]: both parts non-empty and free of separators,
    no dot in [ext], and [stem] not made of dots only. *)
Definition is_stem_ext (stem ext : string) : bool :=
  truthy stem && truthy ext &&
  all_chars (is_not "/") stem && all_chars (is_not "/") ext &&
  all_chars (is_not ".") ext && negb (all_chars is_dot stem).

End PosixPath.

(** ** The fragment of [re] the crawler's patterns use

    A backtracking matcher in continuation-passing style: greedy
    quantifiers try the longest match first and give characters back when
    the rest of the pattern fails, as Python's [re] does. *)

Module Re.

Inductive regex : Type :=
| Lit (l : string)                 (* literal text *)
| Plus (p : ascii -> bool)         (* [class]+ , greedy *)
| Opt (r : regex)                  (* (?:r)? , greedy *)
| Grp (r : regex)                  (* (r) , capturing *)
| Cat (r1 r2 : regex).             (* r1 r2 *)

(** Strip the literal [l] from the front of [s]. *)
Fixpoint lit_match (l s : string) : option string :=
  match l with
  | EmptyString => Some s
  | String a l' =>
      match s with
      | String b s' => if Ascii.eqb a b then lit_match l' s' else None
      | EmptyString => None
      end
  end.

(** The text between the start [s] of a group and the rest [t] after it. *)
Definition consumed (s t : string) : string :=
  PyStr.take (String.length s - String.length t) s.

Section Matcher.
Context {R : Type}.

(** [class]* followed by the continuation [k], longest first. *)
Fixpoint star_k (p : ascii -> bool) (s : string) (k : string -> option R)
  : option R :=
  match s with
  | String c s' =>
      if p c then
        match star_k p s' k with
        | Some r => Some r
        | None => k s
        end
      else k s
  | EmptyString => k EmptyString
  end.

Fixpoint rmatch (r : regex) (s : string) (caps : list string)
    (k : string -> list string -> option R) : option R :=
  match r with
  | Lit l =>
      match lit_match l s with
      | Some s' => k s' caps
      | None => None
      end
  | Plus p =>
      match s with
      | String c s' => if p c then star_k p s' (fun t => k t caps) else None
      | EmptyString => None
      end
  | Opt r' =>
      match rmatch r' s caps k with
      | Some x => Some x
      | None => k s caps
      end
  | Grp r' => rmatch r' s caps (fun t caps' => k t (caps' ++ [consumed s t]))
  | Cat r1 r2 => rmatch r1 s caps (fun t caps' => rmatch r2 t caps' k)
  end.

End Matcher.

(** [re.match(r, s)]: anchored at the start, not at the end; the result is
    the list of groups, [group(i)] at index [i - 1]. *)
Definition re_match (r : regex) (s : string) : option (list string) :=
  rmatch r s [] (fun _ caps => Some caps).

Definition group (m : list string) (i : nat) : string :=
  nth (i - 1) m EmptyString.

(** [rest] cannot extend a run of the class [p]. *)
Definition stops (p : ascii -> bool) (rest : string) : Prop :=
  match rest with
  | EmptyString => True
  | String c _ => p c = false
  end.

End Re.

Infix "⋅" := Re.Cat (at level 60, right associativity).

(** ** JSON values and Python truthiness *)

Inductive json : Type :=
| JNull
| JBool (b : bool)
| JInt (n : Z)
| JFloat (m e : Z)                     (* the finite float m * 10^e *)
| JNaN
| JInf (negative : bool)
| JStr (s : string)
| JArr (l : list json)
| JObj (l : list (string * json)).

(** [bool(v)] for a value [json.loads] returns: [None], [False], zero,
    the empty string, the empty list and the empty dict are falsy. *)
Definition json_truthy (v : json) : bool :=
  match v with
  | JNull => false
  | JBool b => b
  | JInt n => negb (n =? 0)
  | JFloat m _ => negb (m =? 0)
  | JNaN => true
  | JInf _ => true
  | JStr s => PyStr.truthy s
  | JArr l => match l with [] => false | _ => true end
  | JObj l => match l with [] => false | _ => true end
  end.

(** A Python variable holding either [None] (nothing found) or a decoded
    JSON value; [json.loads("null")] is [Some JNull], and Python cannot tell
    the two apart. *)
Definition pyval_truthy (o : option json) : bool :=
  match o with
  | Some v => json_truthy v
  | None => false
  end.

(** ** The library boundary

    [None] stands for a raised exception ([json.JSONDecodeError],
    [binascii.Error], [UnicodeDecodeError], PIL's [UnidentifiedImageError]). *)

Class PyLib : Type := {
  (** [json.loads(s)] *)
  json_loads : string -> option json;
  (** [json.dumps(v, indent=2)], the text [json.dump(v, f, indent=2)] writes *)
  json_dumps : json -> string;
  (** [base64.b64decode(s).decode('utf-8')] *)
  b64decode_utf8 : string -> option string;
  (** [Image.open(io.BytesIO(data)).info], restricted to its text fields *)
  image_info : string -> option (gmap string string);
  (** [urllib.parse.urlparse(url).path] *)
  urlparse_path : string -> string;
  (** [urllib.parse.urljoin(base, url)] *)
  urljoin : string -> string -> string
}.

(** The metadata payload of an image: the text field [parameters] when the
    image has one, else the text field [workflow]. *)
Definition embedded_payload `{PyLib} (image_data : string) : option string :=
  match image_info image_data with
  | Some info =>
      match info !! "parameters" with
      | Some p => Some p
      | None => info !! "workflow"
      end
  | None => None
  end.

(** The payload of the image is non-empty and parses to [v]. *)
Definition parses_to `{PyLib} (image_data : string) (v : json) : Prop :=
  exists d, embedded_payload image_data = Some d /\
            PyStr.truthy d = true /\ json_loads d = Some v.

(** ** The remote world, the file system and effects *)

(** One entry of a hosted-tree directory listing. *)
Record item : Type := Item {
  name : string;
  type : string;
  download_url : option string
}.

(** What [BeautifulSoup(text, 'html.parser')] finds in a page:
    [link.get('href')] of every [a] tag and [img.get('src')] of every [img]
    tag, in document order ([None] when the attribute is missing). *)
Record html : Type := Html {
  a_hrefs : list (option string);
  img_srcs : list (option string)
}.

(** The answer of the network to a GET, per kind of endpoint: status code
    and decoded body.  The world does not change during a run. *)
Record World : Type := {
  list_dir : string -> Z * list item;     (* contents API: response.json() *)
  raw : string -> Z * string;             (* raw download: response.text / .content *)
  page : string -> Z * html;              (* web page: parsed response.text *)
  (* catalog API: url, query parameters, request headers *)
  api_get : string -> gmap string string -> gmap string string -> Z * json
}.

Inductive exn : Type :=
| ValueError (msg : string)
| HTTPError (status : Z)
| MissingSchema
| NameError (ident : string)
| SystemExit (code : Z).

(** Effects, most recent first in [trace]. *)
Inductive event : Type :=
| EvList (url : string)                   (* GET on the contents API *)
| EvGet (url : string)                    (* GET of a raw file *)
| EvPage (url : string)                   (* GET of a web page *)
| EvApi (url : string) (params headers : gmap string string)
| EvMkdir (path : string)
| EvWrite (path content : string)
| EvPrint (line : string).

(** The file system and the effect trace.  [open(path, 'w')] and directory
    creation are modelled as succeeding: every writer in the sources creates
    or lists the directory before it writes. *)
Record state : Type := State {
  files : gmap string string;
  dirs : gset string;
  trace : list event
}.


Inductive res (A : Type) : Type :=
| Ok (a : A)
| Raise (e : exn)
| Diverge.                                (* the recursion budget ran out *)
Arguments Ok {A} a.
Arguments Raise {A} e.
Arguments Diverge {A}.

Definition M (A : Type) : Type := state -> res A * state.

Definition ret {A} (a : A) : M A := fun st => (Ok a, st).
Definition raise {A} (e : exn) : M A := fun st => (Raise e, st).
Definition bind {A B} (m : M A) (k : A -> M B) : M B :=
  fun st =>
    match m st with
    | (Ok a, st') => k a st'
    | (Raise e, st') => (Raise e, st')
    | (Diverge, st') => (Diverge, st')
    end.

Notation "'let*' x := m 'in' k" := (bind m (fun x => k))
  (at level 10, x pattern, m at level 100, k at level 200).
Notation "m ;; k" := (bind m (fun _ => k))
  (at level 100, k at level 200, right associativity).

Definition emit (e : event) : M unit :=
  fun st => (Ok tt, State (files st) (dirs st) (e :: trace st)).

(** [with open(path, 'w') as f: f.write(content)] *)
Definition write_file (path content : string) : M unit :=
  fun st =>
    (Ok tt, State (<[path := content]> (files st)) (dirs st)
               (EvWrite path content :: trace st)).

(** The proper ancestors of a path: the text before each of its
    separators. *)
Fixpoint parents (pre s : string) : list string :=
  match s with
  | EmptyString => []
  | String c s' =>
      (if Ascii.eqb c "/" && PyStr.truthy pre then [pre] else []) ++
      parents (pre +:+ String c EmptyString) s'
  end.

(** [os.makedirs(p, exist_ok=True)] and [Path(p).mkdir(parents=True,
    exist_ok=True)] *)
Definition makedirs (p : string) : M unit :=
  fun st =>
    (Ok tt, State (files st)
               (list_to_set (parents EmptyString p ++ [p]) ∪ dirs st)
               (EvMkdir p :: trace st)).


(** [os.listdir(dir)]: the names of the files directly in [dir], in the
    order the file system gives them. *)
Definition listdir (dir : string) (st : state) : list string :=
  omap (fun p =>
          match Re.lit_match (dir +:+ "/") p with
          | Some n =>
              if PyStr.truthy n && PyStr.all_chars (fun c => negb (Ascii.eqb c "/")) n
              then Some n else None
          | None => None
          end)
       (elements (dom (files st))).

(** The writes, the page requests and the catalog requests of a trace,
    most recent first. *)
Definition writes (tr : list event) : list (string * string) :=
  omap (fun e => match e with EvWrite p c => Some (p, c) | _ => None end) tr.

Definition pages_fetched (tr : list event) : list string :=
  omap (fun e => match e with EvPage u => Some u | _ => None end) tr.

Definition api_requests (tr : list event)
  : list (string * gmap string string * gmap string string) :=
  omap (fun e => match e with EvApi u p h => Some (u, p, h) | _ => None end) tr.

(** [raise_for_status()]: raises for 4xx and 5xx. *)
Definition raise_for_status (status : Z) : M unit :=
  if (400 <=? status) && (status <? 600) then raise (HTTPError status) else ret tt.

(** [try: m  except Exception as e: h e]; [SystemExit] is not an
    [Exception] and passes through. *)
Definition catch {A} (m : M A) (h : exn -> M A) : M A :=
  fun st =>
    match m st with
    | (Raise (SystemExit c), st') => (Raise (SystemExit c), st')
    | (Raise e, st') => h e st'
    | r => r
    end.

(** ** crawlers/github_workflow_crawler.py *)

Module GithubCrawler.
Import PyStr PosixPath Re.

Definition GITHUB_API_URL : string := "https://api.github.com".
Definition FILE_TYPE_JSON : string := "json".
Definition FILE_TYPE_IMAGE : string := "image".
Definition SUPPORTED_IMAGE_EXTENSIONS : list string := [".png"; ".jpg"; ".jpeg"].

(** The class [[^/]] and the class of [.] (anything but a newline). *)
Definition not_slash (c : ascii) : bool := negb (Ascii.eqb c "/").
Definition not_newline (c : ascii) : bool := negb (Ascii.eqb c "010").

(** [(?:https?://)?(?:www\.)?github\.com/([^/]+)/([^/]+)] *)
Definition basic_pattern : regex :=
  Opt (Lit "http" ⋅ Opt (Lit "s") ⋅ Lit "://") ⋅ Opt (Lit "www.") ⋅
  Lit "github.com/" ⋅ Grp (Plus not_slash) ⋅ Lit "/" ⋅ Grp (Plus not_slash).

(** [(?:https?://)?(?:www\.)?github\.com/[^/]+/[^/]+/tree/([^/]+)/(.+)] *)
Definition tree_pattern : regex :=
  Opt (Lit "http" ⋅ Opt (Lit "s") ⋅ Lit "://") ⋅ Opt (Lit "www.") ⋅
  Lit "github.com/" ⋅ Plus not_slash ⋅ Lit "/" ⋅ Plus not_slash ⋅
  Lit "/tree/" ⋅ Grp (Plus not_slash) ⋅ Lit "/" ⋅ Grp (Plus not_newline).

(** A non-empty URL segment, and a non-empty path on one line. *)
Definition is_segment (x : string) : bool := truthy x && all_chars not_slash x.
Definition is_tree_path (x : string) : bool := truthy x && all_chars not_newline x.

(** [parse_github_url(url)]: the triple [(owner, repo, path)].  The branch
    of a tree URL is bound to a local variable and logged; it is not part of
    the result. *)
Definition parse_github_url (url : string) : M (string * string * string) :=
  match re_match basic_pattern url with
  | None => raise (ValueError ("Invalid GitHub URL: " +:+ url))
  | Some m =>
      let owner := group m 1 in
      let repo := group m 2 in
      match re_match tree_pattern url with
      | Some tree_match =>
          let branch := group tree_match 1 in
          let path := group tree_match 2 in
          let repo := hd EmptyString (split repo "/") in
          emit (EvPrint ("Detected branch: " +:+ branch +:+ ", path: " +:+ path)) ;;
          ret (owner, repo, path)
      | None => ret (owner, repo, EmptyString)
      end
  end.

(** The URL [get_repo_contents] requests. *)
Definition contents_url (owner repo path : string) : string :=
  let api_path := "/repos/" +:+ owner +:+ "/" +:+ repo +:+ "/contents" in
  let api_path := if truthy path then api_path +:+ "/" +:+ path else api_path in
  GITHUB_API_URL +:+ api_path.

Section Crawler.
Context `{PyLib} (w : World).

Definition get_repo_contents (owner repo path : string) : M (list item) :=
  let url := contents_url owner repo path in
  emit (EvList url) ;;
  let '(status_code, body) := list_dir w url in
  (if negb (status_code =? 200) then raise_for_status status_code else ret tt) ;;
  ret body.

(** The payload is [info['parameters']] when that key exists, else
    [info['workflow']]; a payload that does not parse gives [None]. *)
Definition extract_workflow_from_image (image_data : string) : option json :=
  match image_info image_data with
  | None => None
  | Some info =>
      let workflow_data :=
        match info !! "parameters" with
        | Some p => Some p
        | None => info !! "workflow"
        end in
      match workflow_data with
      | Some d => if truthy d then json_loads d else None
      | None => None
      end
  end.

(** [requests.get(url)] of a raw file; [requests.get(None)] raises. *)
Definition requests_get (url : option string) : M (Z * string) :=
  match url with
  | None => raise MissingSchema
  | Some u => emit (EvGet u) ;; ret (raw w u)
  end.

(** [download_file(file_info, file_type)]: [Some (name, content)] for the
    dict it returns, [None] for [None]. *)
Definition download_file (file_info : item) (file_type : string)
  : M (option (string * json)) :=
  let file_name := name file_info in
  let file_ext := lower (suffix file_name) in
  if negb (String.eqb (type file_info) "file") then ret None
  else if String.eqb file_type FILE_TYPE_JSON && negb (endswith file_name ".json")
  then ret None
  else if String.eqb file_type FILE_TYPE_IMAGE &&
          negb (bool_decide (file_ext ∈ SUPPORTED_IMAGE_EXTENSIONS))
  then ret None
  else
    let* (status_code, body) := requests_get (download_url file_info) in
    if negb (status_code =? 200) then ret None
    else if String.eqb file_type FILE_TYPE_JSON then
      match json_loads body with
      | Some json_content => ret (Some (file_name, json_content))
      | None => ret None
      end
    else
      let workflow_json := extract_workflow_from_image body in
      if pyval_truthy workflow_json then
        match workflow_json with
        | Some v => ret (Some (stem file_name +:+ ".json", v))
        | None => ret None
        end
      else ret None.

(** Whether [process_directory] counts a file entry. *)
Definition wanted (file_type : string) (it : item) : bool :=
  let file_ext := lower (suffix (name it)) in
  (String.eqb file_type FILE_TYPE_JSON && endswith (name it) ".json") ||
  (String.eqb file_type FILE_TYPE_IMAGE &&
   bool_decide (file_ext ∈ SUPPORTED_IMAGE_EXTENSIONS)).

(** The [for item in contents] loop of [process_directory] with its two
    counters; [recurse] is the recursive call on a subdirectory path. *)
Definition process_items (recurse : string -> M (Z * Z))
    (path output_dir : string) (recursive : bool) (file_type : string)
  : list item -> Z -> Z -> M (Z * Z) :=
  fix loop (items : list item) (total_files downloaded_files : Z) : M (Z * Z) :=
    match items with
    | [] => ret (total_files, downloaded_files)
    | it :: rest =>
        if String.eqb (type it) "file" then
          if wanted file_type it then
            let total_files := total_files + 1 in
            let* file_data := download_file it file_type in
            match file_data with
            | Some (fname, content) =>
                let output_path := join output_dir fname in
                write_file output_path (json_dumps content) ;;
                loop rest total_files (downloaded_files + 1)
            | None => loop rest total_files downloaded_files
            end
          else loop rest total_files downloaded_files
        else if recursive && String.eqb (type it) "dir" then
          let subdir_path :=
            if truthy path then path +:+ "/" +:+ name it else name it in
          let* (sub_total, sub_downloaded) := recurse subdir_path in
          loop rest (total_files + sub_total) (downloaded_files + sub_downloaded)
        else loop rest total_files downloaded_files
    end.

(** [process_directory]: the pair [(total_files, downloaded_files)].  The
    recursion follows the remote tree, so it is bounded by [fuel]. *)
Fixpoint process_directory (fuel : nat) (owner repo path output_dir : string)
    (recursive : bool) (file_type : string) : M (Z * Z) :=
  match fuel with
  | O => fun st => (Diverge, st)
  | S fuel' =>
      let* contents := get_repo_contents owner repo path in
      process_items
        (fun subdir_path =>
           process_directory fuel' owner repo subdir_path output_dir
             recursive file_type)
        path output_dir recursive file_type contents 0 0
  end.

(** The command line after [parse_arguments]. *)
Record args : Type := Args {
  arg_url : string;
  arg_output : string;
  arg_recursive : bool;
  arg_file_type : string
}.

(** [main()]: any exception of the crawl is logged and raised again. *)
Definition main (fuel : nat) (a : args) : M unit :=
  let* (repo_owner, repo_name, repo_path) := parse_github_url (arg_url a) in
  let output_dir := arg_output a in
  makedirs output_dir ;;
  catch
    (let* (total_files, downloaded_files) :=
       process_directory fuel repo_owner repo_name repo_path output_dir
         (arg_recursive a) (arg_file_type a) in
     ret tt)
    (fun e => emit (EvPrint "An error occurred") ;; raise e).

(** *** The remote tree behind the listings

    A finite tree of entries: a leaf is any entry that is not a directory,
    a directory carries the entries of its own listing. *)

Inductive rentry : Type :=
| RLeaf (it : item)
| RDir (nm : string) (children : list rentry).






End Crawler.







(** Nesting depth of the directories. *)
Fixpoint depth_entry (e : rentry) : nat :=
  match e with
  | RLeaf _ => O
  | RDir _ children =>
      S (fold_right (fun c acc => Nat.max (depth_entry c) acc) O children)
  end.

Definition depth (entries : list rentry) : nat :=
  fold_right (fun c acc => Nat.max (depth_entry c) acc) O entries.



(** The URLs of the listing requests and of the file downloads in a trace,
    most recent first. *)
Definition listed (tr : list event) : list string :=
  omap (fun e => match e with EvList u => Some u | _ => None end) tr.

Definition fetched (tr : list event) : list string :=
  omap (fun e => match e with EvGet u => Some u | _ => None end) tr.

End GithubCrawler.

(** ** crawlers/comfyui_crawler.py *)

Module ComfyCrawler.
Import PyStr PosixPath.

Definition image_extensions : list string :=
  [".jpg"; ".jpeg"; ".png"; ".gif"; ".webp"].




Section Crawler.
Context `{PyLib} (w : World).

Definition is_image_url (url : string) : bool :=
  let path := lower (urlparse_path url) in
  existsb (fun ext => endswith path ext) image_extensions.


(** The two list-building loops over the root page's links. *)
Definition direct_image_links (base_url : string) (links : list (option string))
  : list string :=
  omap (fun href =>
          match href with
          | Some h => if truthy h && is_image_url h then Some (urljoin base_url h) else None
          | None => None
          end) links.

Definition example_pages (base_url : string) (links : list (option string))
  : list string :=
  omap (fun href =>
          match href with
          | Some h =>
              if truthy h && negb (is_image_url h) && negb (startswith h "#") &&
                 negb (startswith h "http")
              then Some (urljoin base_url h) else None
          | None => None
          end) links.

(** What one example page adds to [image_urls]: every [img] source, then
    every link to an image. *)
Definition page_images (page_url : string) (soup : html) : list string :=
  omap (fun src =>
          match src with
          | Some s => if truthy s then Some (urljoin page_url s) else None
          | None => None
          end) (img_srcs soup)
  ++ direct_image_links page_url (a_hrefs soup).

(** [for page_url in example_pages: try: ... except Exception: print] *)
Fixpoint visit_pages (pages : list string) (image_urls : list string)
  : M (list string) :=
  match pages with
  | [] => ret image_urls
  | page_url :: rest =>
      let* image_urls :=
        catch
          (emit (EvPage page_url) ;;
           let '(status_code, page_soup) := page w page_url in
           raise_for_status status_code ;;
           ret (image_urls ++ page_images page_url page_soup))
          (fun e =>
             emit (EvPrint ("Error processing page " +:+ page_url)) ;;
             ret image_urls) in
      visit_pages rest image_urls
  end.


(** The discovery half of [crawl_images]: the de-duplicated [image_urls].
    [list(set(image_urls))] has no specified order; [elements] of a [gset]
    is one such order. *)
Definition discover_images (base_url : string) : M (list string) :=
  emit (EvPage base_url) ;;
  let '(status_code, soup) := page w base_url in
  raise_for_status status_code ;;
  let links := a_hrefs soup in
  let image_urls := direct_image_links base_url links in
  let* image_urls := visit_pages (example_pages base_url links) image_urls in
  ret (elements (list_to_set image_urls : gset string)).


(** [extract_workflow_from_image(image_path)]: [Image.open] reads the file
    at [image_path]; a missing or undecodable file gives [None]. *)
Definition extract_workflow_from_image (image_path : string) (st : state)
  : option json :=
  match files st !! image_path with
  | None => None
  | Some image_data =>
      match image_info image_data with
      | None => None
      | Some info =>
          let workflow_data :=
            match info !! "parameters" with
            | Some p => Some p
            | None => info !! "workflow"
            end in
          match workflow_data with
          | Some d => if truthy d then json_loads d else None
          | None => None
          end
      end
  end.

(** [save_workflow_as_json(workflow_data, image_path, output_dir)]: the
    path written, or [None]. *)
Definition save_workflow_as_json (workflow_data : option json)
    (image_path output_dir : string) : M (option string) :=
  if negb (pyval_truthy workflow_data) then ret None
  else
    match workflow_data with
    | None => ret None
    | Some v =>
        makedirs output_dir ;;
        let image_filename := basename image_path in
        let base_name := fst (splitext image_filename) in
        let json_filename := base_name +:+ "_workflow.json" in
        let json_path := join output_dir json_filename in
        write_file json_path (json_dumps v) ;;
        emit (EvPrint ("Saved workflow from " +:+ image_path +:+ " to " +:+ json_path)) ;;
        ret (Some json_path)
    end.



(** [for image_path in image_files: ...] of [process_images_for_workflows] *)
Fixpoint save_all (image_files : list string) (workflow_dir : string)
    (saved_workflows : list string) : M (list string) :=
  match image_files with
  | [] => ret saved_workflows
  | image_path :: rest =>
      let* workflow_data := (fun st => (Ok (extract_workflow_from_image image_path st), st)) in
      if pyval_truthy workflow_data then
        let* json_path := save_workflow_as_json workflow_data image_path workflow_dir in
        match json_path with
        | Some p =>
            if truthy p then save_all rest workflow_dir (saved_workflows ++ [p])
            else save_all rest workflow_dir saved_workflows
        | None => save_all rest workflow_dir saved_workflows
        end
      else save_all rest workflow_dir saved_workflows
  end.


End Crawler.
End ComfyCrawler.

(** ** parse_workflow_templates.py *)

Module ParseTemplates.
Import PyStr PosixPath.

Section Parse.
Context `{PyLib}.

(** [extract_workflow_from_image(image_data)].  This module never binds
    [logger]: each path that reaches a [logger.error] call raises
    [NameError], also from inside the handlers, so only a payload that
    parses returns. *)
Definition extract_workflow_from_image (image_data : string) : M (option json) :=
  match image_info image_data with
  | None => raise (NameError "logger")
  | Some info =>
      let workflow_data :=
        match info !! "parameters" with
        | Some p => Some p
        | None => info !! "workflow"
        end in
      match workflow_data with
      | Some d =>
          if truthy d then
            match json_loads d with
            | Some workflow_json => ret (Some workflow_json)
            | None => raise (NameError "logger")
            end
          else raise (NameError "logger")
      | None => raise (NameError "logger")
      end
  end.

(** [try_decode_data(data)] for [data] a [str] ([inl]) or an already
    decoded value ([inr]): a dict is returned as it is, a string is parsed
    directly and, failing that, base64-decoded and parsed.  No function of
    the repository calls it. *)
Definition try_decode_data (data : string + json) : option json :=
  match data with
  | inr (JObj d) => Some (JObj d)
  | inr _ => None
  | inl s =>
      match json_loads s with
      | Some v => Some v
      | None =>
          match b64decode_utf8 s with
          | Some decoded => json_loads decoded
          | None => None
          end
      end
  end.

Definition template_dir : string := "tools/workflow_templates".

(** The body of [main]'s loop over [os.listdir(template_dir)]. *)
Fixpoint main_loop (filenames : list string) : M unit :=
  match filenames with
  | [] => ret tt
  | filename :: rest =>
      if endswith (lower filename) ".png" then
        let png_path := join template_dir filename in
        emit (EvPrint ("Processing " +:+ filename +:+ "...")) ;;
        let* image_data :=
          (fun st => (Ok (default EmptyString (files st !! png_path)), st)) in
        let* workflow_data := extract_workflow_from_image image_data in
        (if pyval_truthy workflow_data then
           match workflow_data with
           | Some v =>
               let json_filename := fst (splitext filename) +:+ "_metadata.json" in
               let json_path := join template_dir json_filename in
               write_file json_path (json_dumps v) ;;
               emit (EvPrint ("Saved metadata to " +:+ json_filename))
           | None => ret tt
           end
         else emit (EvPrint ("No workflow metadata found in " +:+ filename))) ;;
        main_loop rest
      else main_loop rest
  end.

Definition main : M unit :=
  let* filenames := (fun st => (Ok (listdir template_dir st), st)) in
  main_loop filenames.

End Parse.
End ParseTemplates.

(** ** civitai_image_search.py *)

Module Civitai.
Import PyStr PosixPath.

(** [datetime.now()] as the clock gives it. *)
Record datetime : Type := DateTime {
  year : nat; month : nat; day : nat; hour : nat; minute : nat; second : nat
}.

(** The decimal digit of [n] at the units place. *)
Definition digit (n : nat) : ascii := ascii_of_nat (48 + n mod 10).

(** [%m], [%d], [%H], [%M], [%S]: two digits; [%Y]: four digits. *)
Definition pad2 (n : nat) : string :=
  String (digit (n / 10)) (String (digit n) EmptyString).

Definition pad4 (n : nat) : string :=
  String (digit (n / 1000)) (String (digit (n / 100)) (pad2 n)).

(** [now.strftime("%Y%m%d_%H%M%S")] *)
Definition strftime (now : datetime) : string :=
  pad4 (year now) +:+ pad2 (month now) +:+ pad2 (day now) +:+
  "_" +:+ pad2 (hour now) +:+ pad2 (minute now) +:+ pad2 (second now).

(** [get_api_key()]: a missing or empty key ends the program with exit
    status 1. *)
Definition get_api_key (environ : gmap string string) : M string :=
  let api_key := environ !! "CIVITAI_API_KEY" in
  match api_key with
  | Some k =>
      if truthy k then ret k
      else
        emit (EvPrint "Error: CIVITAI_API_KEY environment variable not set.") ;;
        emit (EvPrint "Please set it using: export CIVITAI_API_KEY='your_api_key'") ;;
        raise (SystemExit 1)
  | None =>
      emit (EvPrint "Error: CIVITAI_API_KEY environment variable not set.") ;;
      emit (EvPrint "Please set it using: export CIVITAI_API_KEY='your_api_key'") ;;
      raise (SystemExit 1)
  end.

(** [headers = {}; if api_key: headers["Authorization"] = f"Bearer {api_key}"] *)
Definition auth_headers (api_key : option string) : gmap string string :=
  match api_key with
  | Some k => if truthy k then {[ "Authorization" := "Bearer " +:+ k ]} else ∅
  | None => ∅
  end.

(** The keyword arguments of [search_models]. *)
Record search_args : Type := SearchArgs {
  query : option string;
  limit : Z;
  page_no : Z;
  nsfw : option string;
  sort : option string;
  period : option string;
  types : option (list string);
  baseModels : option (list string);
  tags : option (list string);
  username : option string
}.

Definition set_str (key : string) (v : option string) (params : gmap string string)
  : gmap string string :=
  match v with
  | Some s => if truthy s then <[key := s]> params else params
  | None => params
  end.

Definition set_int (key : string) (v : Z) (params : gmap string string)
  : gmap string string :=
  if v =? 0 then params else <[key := pretty v]> params.

(** [",".join(l)] *)
Fixpoint comma_join (l : list string) : string :=
  match l with
  | [] => EmptyString
  | [x] => x
  | x :: rest => x +:+ "," +:+ comma_join rest
  end.

Definition set_list (key : string) (v : option (list string))
    (params : gmap string string) : gmap string string :=
  match v with
  | Some (x :: l) => <[key := comma_join (x :: l)]> params
  | _ => params
  end.

Definition search_params (a : search_args) : gmap string string :=
  let params := set_str "query" (query a) ∅ in
  let params := set_int "limit" (limit a) params in
  let params := set_int "page" (page_no a) params in
  let params := match nsfw a with Some v => <["nsfw" := v]> params | None => params end in
  let params := set_str "sort" (sort a) params in
  let params := set_str "period" (period a) params in
  let params := set_list "types" (types a) params in
  let params := set_list "baseModels" (baseModels a) params in
  let params := set_list "tags" (tags a) params in
  set_str "username" (username a) params.

Section Api.
Context `{PyLib} (w : World).

(** [search_models(..., api_key)]: a failed request ends the program. *)
Definition search_models (a : search_args) (api_key : option string) : M json :=
  let base_url := "https://civitai.com/api/v1/models" in
  let params := search_params a in
  let headers := auth_headers api_key in
  emit (EvApi base_url params headers) ;;
  let '(status_code, body) := api_get w base_url params headers in
  if (400 <=? status_code) && (status_code <? 600)
  then emit (EvPrint "Error during API request") ;; raise (SystemExit 1)
  else ret body.

(** [get_model_versions(model_id, api_key)]: a failed request gives [None]. *)
Definition get_model_versions (model_id : Z) (api_key : option string)
  : M (option json) :=
  let base_url := "https://civitai.com/api/v1/models/" +:+ pretty model_id in
  let headers := auth_headers api_key in
  emit (EvApi base_url ∅ headers) ;;
  let '(status_code, body) := api_get w base_url ∅ headers in
  if (400 <=? status_code) && (status_code <? 600)
  then emit (EvPrint "Error fetching model details") ;; ret None
  else ret (Some body).

(** The file name [download_model_file] saves under. *)
Definition chosen_filename (url : string) (filename : option string)
    (now : datetime) : string :=
  let filename :=
    match filename with
    | Some f =>
        if truthy f then f
        else
          let url_path := urlparse_path url in
          let f := basename url_path in
          if negb (truthy f) || (String.length f <? 5)%nat
          then "civitai_model_" +:+ strftime now +:+ ".safetensors"
          else f
    | None =>
        let url_path := urlparse_path url in
        let f := basename url_path in
        if negb (truthy f) || (String.length f <? 5)%nat
        then "civitai_model_" +:+ strftime now +:+ ".safetensors"
        else f
    end in
  if negb (truthy (snd (splitext filename)))
  then filename +:+ ".safetensors" else filename.

(** [download_model_file(url, output_dir, filename)]: the path saved, or
    [None] when the request fails. *)
Definition download_model_file (url output_dir : string)
    (filename : option string) (now : datetime) : M (option string) :=
  emit (EvPrint ("Downloading from " +:+ url +:+ "...")) ;;
  emit (EvGet url) ;;
  let '(status_code, body) := raw w url in
  if (400 <=? status_code) && (status_code <? 600)
  then emit (EvPrint "Error downloading model") ;; ret None
  else
    makedirs output_dir ;;
    let filename := chosen_filename url filename now in
    let file_path := join output_dir filename in
    emit (EvPrint ("Saving to " +:+ file_path)) ;;
    write_file file_path body ;;
    ret (Some file_path).

(** The command line of [main]. *)
Record cli_args : Type := CliArgs {
  arg_model_id : option Z;
  arg_search : search_args
}.

(** [main()] up to the catalog request; the interactive listing of
    [display_results] that follows is not modelled.  The key is read first,
    before any request. *)
Definition main (environ : gmap string string) (a : cli_args) : M unit :=
  let* api_key := get_api_key environ in
  match arg_model_id a with
  | Some model_id =>
      if model_id =? 0 then
        let* results := search_models (arg_search a) (Some api_key) in ret tt
      else
        let* model_details := get_model_versions model_id (Some api_key) in
        raise (SystemExit 0)
  | None =>
      let* results := search_models (arg_search a) (Some api_key) in ret tt
  end.

End Api.
End Civitai.

(** ** A reference library

    Executable stand-ins for the library boundary, used to run the embedded
    code on concrete inputs.  They cover what the examples need: JSON
    without [\u] escapes (floats kept as exact decimals), canonical base64
    of ASCII text, URLs of the shape [scheme://host/path?query#fragment],
    and images given as one text record [keyword NUL text]. *)

Module PyRef.
Import PyStr.

Definition quote : ascii := "034".
Definition backslash : ascii := "092".

Definition is_ws (c : ascii) : bool :=
  Ascii.eqb c " " || Ascii.eqb c "009" || Ascii.eqb c "010" || Ascii.eqb c "013".

Fixpoint skip_ws (s : string) : string :=
  match s with
  | String c s' => if is_ws c then skip_ws s' else s
  | EmptyString => EmptyString
  end.

Definition is_digit (c : ascii) : bool :=
  let n := nat_of_ascii c in ((48 <=? n) && (n <=? 57))%nat.

(** The longest prefix of digits and the rest. *)
Fixpoint span_digits (s : string) : string * string :=
  match s with
  | String c s' =>
      if is_digit c then let '(d, r) := span_digits s' in (String c d, r)
      else (EmptyString, s)
  | EmptyString => (EmptyString, EmptyString)
  end.

Fixpoint digits_value (acc : Z) (s : string) : Z :=
  match s with
  | String c s' => digits_value (10 * acc + (Z.of_nat (nat_of_ascii c) - 48)) s'
  | EmptyString => acc
  end.

(** A JSON number: [-? int frac? exp?]; an integer literal is an [int],
    anything with a fraction or an exponent a float. *)
Definition parse_number (s : string) : option (json * string) :=
  let '(neg, s1) :=
    match s with
    | String "-" r => (true, r)
    | _ => (false, s)
    end in
  let '(ip, s2) := span_digits s1 in
  let int_ok :=
    match ip with
    | EmptyString => false
    | String "0" (String _ _) => false
    | _ => true
    end in
  if negb int_ok then None
  else
    let '(fp, s3, has_frac, frac_ok) :=
      match s2 with
      | String "." r =>
          let '(d, r') := span_digits r in (d, r', true, truthy d)
      | _ => (EmptyString, s2, false, true)
      end in
    let '(ex, s4, has_exp, exp_ok) :=
      match s3 with
      | String c r =>
          if Ascii.eqb c "e" || Ascii.eqb c "E" then
            let '(sg, r1) :=
              match r with
              | String "-" r' => (-1, r')
              | String "+" r' => (1, r')
              | _ => (1, r)
              end in
            let '(d, r2) := span_digits r1 in
            (sg * digits_value 0 d, r2, true, truthy d)
          else (0, s3, false, true)
      | EmptyString => (0, s3, false, true)
      end in
    if negb (frac_ok && exp_ok) then None
    else
      let mag := digits_value 0 (ip +:+ fp) in
      let m := if neg then - mag else mag in
      if has_frac || has_exp
      then Some (JFloat m (ex - Z.of_nat (String.length fp)), s4)
      else Some (JInt m, s4).

(** The characters of a string literal after its opening quote. *)
Fixpoint parse_string_body (s : string) : option (string * string) :=
  match s with
  | EmptyString => None
  | String c s' =>
      if Ascii.eqb c quote then Some (EmptyString, s')
      else if Ascii.eqb c backslash then
        match s' with
        | String e s'' =>
            let put (x : ascii) :=
              match parse_string_body s'' with
              | Some (t, r) => Some (String x t, r)
              | None => None
              end in
            if Ascii.eqb e quote then put quote
            else if Ascii.eqb e backslash then put backslash
            else if Ascii.eqb e "/" then put "/"%char
            else if Ascii.eqb e "n" then put "010"%char
            else if Ascii.eqb e "t" then put "009"%char
            else if Ascii.eqb e "r" then put "013"%char
            else if Ascii.eqb e "b" then put "008"%char
            else if Ascii.eqb e "f" then put "012"%char
            else None
        | EmptyString => None
        end
      else if (nat_of_ascii c <? 32)%nat then None
      else
        match parse_string_body s' with
        | Some (t, r) => Some (String c t, r)
        | None => None
        end
  end.

(** [d[k] = v] on a dict kept in insertion order. *)
Fixpoint assoc_set (k : string) (v : json) (d : list (string * json))
  : list (string * json) :=
  match d with
  | [] => [(k, v)]
  | (k', v') :: d' =>
      if String.eqb k k' then (k, v) :: d' else (k', v') :: assoc_set k v d'
  end.

Fixpoint parse_value (fuel : nat) (s : string) : option (json * string) :=
  match fuel with
  | O => None
  | S f =>
      match skip_ws s with
      | EmptyString => None
      | String c r as t =>
          if Ascii.eqb c "{" then
            match skip_ws r with
            | String "}" r' => Some (JObj [], r')
            | _ => parse_members f r []
            end
          else if Ascii.eqb c "[" then
            match skip_ws r with
            | String "]" r' => Some (JArr [], r')
            | _ => parse_elements f r []
            end
          else if Ascii.eqb c quote then
            match parse_string_body r with
            | Some (str, r') => Some (JStr str, r')
            | None => None
            end
          else
            match Re.lit_match "null" t, Re.lit_match "true" t,
                  Re.lit_match "false" t, Re.lit_match "NaN" t,
                  Re.lit_match "Infinity" t, Re.lit_match "-Infinity" t with
            | Some r', _, _, _, _, _ => Some (JNull, r')
            | _, Some r', _, _, _, _ => Some (JBool true, r')
            | _, _, Some r', _, _, _ => Some (JBool false, r')
            | _, _, _, Some r', _, _ => Some (JNaN, r')
            | _, _, _, _, Some r', _ => Some (JInf false, r')
            | _, _, _, _, _, Some r' => Some (JInf true, r')
            | _, _, _, _, _, _ => parse_number t
            end
      end
  end
with parse_elements (fuel : nat) (s : string) (acc : list json)
  : option (json * string) :=
  match fuel with
  | O => None
  | S f =>
      match parse_value f s with
      | Some (v, r) =>
          match skip_ws r with
          | String "," r' => parse_elements f r' (acc ++ [v])
          | String "]" r' => Some (JArr (acc ++ [v]), r')
          | _ => None
          end
      | None => None
      end
  end
with parse_members (fuel : nat) (s : string) (acc : list (string * json))
  : option (json * string) :=
  match fuel with
  | O => None
  | S f =>
      match skip_ws s with
      | String c r =>
          if Ascii.eqb c quote then
            match parse_string_body r with
            | Some (k, r1) =>
                match skip_ws r1 with
                | String ":" r2 =>
                    match parse_value f r2 with
                    | Some (v, r3) =>
                        match skip_ws r3 with
                        | String "," r4 => parse_members f r4 (assoc_set k v acc)
                        | String "}" r4 => Some (JObj (assoc_set k v acc), r4)
                        | _ => None
                        end
                    | None => None
                    end
                | _ => None
                end
            | None => None
            end
          else None
      | EmptyString => None
      end
  end.

(** One value, then only white space. *)
Definition loads (s : string) : option json :=
  match parse_value (S (String.length s)) s with
  | Some (v, r) => match skip_ws r with EmptyString => Some v | _ => None end
  | None => None
  end.

Fixpoint spaces (n : nat) : string :=
  match n with
  | O => EmptyString
  | S n' => String " " (spaces n')
  end.

Definition newline : string := String "010" EmptyString.

Fixpoint escape (s : string) : string :=
  match s with
  | EmptyString => EmptyString
  | String c s' =>
      (if Ascii.eqb c quote then String backslash (String quote EmptyString)
       else if Ascii.eqb c backslash then String backslash (String backslash EmptyString)
       else if Ascii.eqb c "010" then String backslash "n"
       else if Ascii.eqb c "009" then String backslash "t"
       else if Ascii.eqb c "013" then String backslash "r"
       else String c EmptyString) +:+ escape s'
  end.

Definition quoted (s : string) : string :=
  String quote (escape s +:+ String quote EmptyString).

Fixpoint join_lines (l : list string) : string :=
  match l with
  | [] => EmptyString
  | [x] => x
  | x :: rest => x +:+ "," +:+ newline +:+ join_lines rest
  end.

(** [json.dumps(v, indent=2)] at nesting depth [depth]. *)
Fixpoint dumps_at (depth : nat) (v : json) : string :=
  match v with
  | JNull => "null"
  | JBool true => "true"
  | JBool false => "false"
  | JInt n => pretty n
  | JFloat m e => pretty m +:+ "e" +:+ pretty e
  | JNaN => "NaN"
  | JInf false => "Infinity"
  | JInf true => "-Infinity"
  | JStr s => quoted s
  | JArr [] => "[]"
  | JArr l =>
      "[" +:+ newline +:+
      join_lines (List.map (fun x => spaces (2 * S depth) +:+ dumps_at (S depth) x) l) +:+
      newline +:+ spaces (2 * depth) +:+ "]"
  | JObj [] => "{}"
  | JObj l =>
      "{" +:+ newline +:+
      join_lines
        (List.map (fun kx => spaces (2 * S depth) +:+ quoted (fst kx) +:+ ": " +:+
                             dumps_at (S depth) (snd kx)) l) +:+
      newline +:+ spaces (2 * depth) +:+ "}"
  end.

Definition dumps (v : json) : string := dumps_at 0 v.

(** The value of a base64 digit. *)
Definition b64_val (c : ascii) : option N :=
  let n := N_of_ascii c in
  if ((65 <=? n) && (n <=? 90))%N then Some (n - 65)%N
  else if ((97 <=? n) && (n <=? 122))%N then Some (n - 71)%N
  else if ((48 <=? n) && (n <=? 57))%N then Some (n + 4)%N
  else if (n =? 43)%N then Some 62%N
  else if (n =? 47)%N then Some 63%N
  else None.

Definition is_pad (c : ascii) : bool := Ascii.eqb c "=".

(** Canonical base64: groups of four digits, the last one padded. *)
Fixpoint b64decode (s : string) : option string :=
  match s with
  | EmptyString => Some EmptyString
  | String a (String b (String c (String d rest))) =>
      match b64_val a, b64_val b with
      | Some x, Some y =>
          let b1 := ascii_of_N (x * 4 + y / 16) in
          if is_pad c then
            if is_pad d && negb (truthy rest) then Some (String b1 EmptyString) else None
          else
            match b64_val c with
            | Some z =>
                let b2 := ascii_of_N ((y mod 16) * 16 + z / 4) in
                if is_pad d then
                  if negb (truthy rest) then Some (String b1 (String b2 EmptyString))
                  else None
                else
                  match b64_val d with
                  | Some t =>
                      let b3 := ascii_of_N ((z mod 4) * 64 + t) in
                      match b64decode rest with
                      | Some tail => Some (String b1 (String b2 (String b3 tail)))
                      | None => None
                      end
                  | None => None
                  end
            | None => None
            end
      | _, _ => None
      end
  | _ => None
  end.

(** [bytes.decode('utf-8')] on ASCII text; other bytes are refused. *)
Definition decode_ascii (s : string) : option string :=
  if all_chars (fun c => (nat_of_ascii c <? 128)%nat) s then Some s else None.

Definition b64decode_text (s : string) : option string :=
  match b64decode s with
  | Some bytes => decode_ascii bytes
  | None => None
  end.

(** The position of the first occurrence of [sub], if any. *)
Fixpoint find (s sub : string) : option nat :=
  if String.prefix sub s then Some O
  else match s with
       | EmptyString => None
       | String _ s' => option_map S (find s' sub)
       end.

(** The text before the first character satisfying [p]. *)
Fixpoint take_until (p : ascii -> bool) (s : string) : string :=
  match s with
  | EmptyString => EmptyString
  | String c s' => if p c then EmptyString else String c (take_until p s')
  end.

Definition is_path_end (c : ascii) : bool := Ascii.eqb c "?" || Ascii.eqb c "#".
Definition is_slash (c : ascii) : bool := Ascii.eqb c "/".

(** [scheme://host] of an absolute URL and what follows it. *)
Definition split_origin (url : string) : option (string * string) :=
  match find url "://" with
  | Some i =>
      let after := drop (i + 3) url in
      let host := take_until (fun c => is_slash c || is_path_end c) after in
      let n := (i + 3 + String.length host)%nat in
      Some (take n url, drop n url)
  | None => None
  end.

Definition url_path (url : string) : string :=
  match split_origin url with
  | Some (_, rest) => take_until is_path_end rest
  | None => take_until is_path_end url
  end.

(** [urljoin(base, ref)] for an absolute [base]: an absolute [ref] stands,
    a rooted one replaces the path, any other replaces the last segment. *)
Definition url_join (base ref : string) : string :=
  match split_origin ref with
  | Some _ => ref
  | None =>
      match split_origin base with
      | Some (origin, rest) =>
          if String.prefix "/" ref then origin +:+ ref
          else
            let path := take_until is_path_end rest in
            origin +:+ slice_to path (rfind path "/" + 1) +:+
            (if truthy path then EmptyString else "/") +:+ ref
      | None => ref
      end
  end.

(** An image given as one text record: keyword, NUL, text. *)
Definition text_record (data : string) : option (gmap string string) :=
  match find data (String "000" EmptyString) with
  | Some i => Some {[ take i data := drop (S i) data ]}
  | None => None
  end.

Instance ref_lib : PyLib := {
  json_loads := loads;
  json_dumps := dumps;
  b64decode_utf8 := b64decode_text;
  image_info := text_record;
  urlparse_path := url_path;
  urljoin := url_join
}.

End PyRef.

#[global] Existing Instance PyRef.ref_lib.

(** ** Example worlds *)

Module Demo.
Import GithubCrawler.

Definition file_item (n : string) : item :=
  Item n "file" (Some ("https://raw.example/" +:+ n)).

(** Images as the reference decoder reads them: a [workflow] text field
    holding an empty object, a list, and the base64 text of an object. *)
Definition nul : string := String "000" EmptyString.
Definition falsy_image : string := "workflow" +:+ nul +:+ "{}".
Definition list_image : string := "workflow" +:+ nul +:+ "[1, 2]".
Definition b64_image : string := "workflow" +:+ nul +:+ "eyJhIjogMX0=".

(** The text that [eyJhIjogMX0=] encodes: an object with the key [a]. *)
Definition b64_text : string :=
  "{" +:+ PyRef.quoted "a" +:+ ": 1}".

Definition demo_raw (url : string) : Z * string :=
  if String.eqb url "https://raw.example/a.json" then (200, "[1, 2]")
  else if String.eqb url "https://raw.example/b.json" then (200, "{}")
  else if String.eqb url "https://raw.example/c.json" then (200, "not json")
  else if String.eqb url "https://raw.example/empty.png" then (200, falsy_image)
  else if String.eqb url "https://raw.example/photo.png" then (200, list_image)
  else if String.eqb url "https://raw.example/b64.png" then (200, b64_image)
  else if String.eqb url "https://raw.example/m/7?type=Model" then (200, "weights")
  else (404, "").

(** A repository [o/r]: two files and the directory [sub] at the root, a
    file and the directory [deep] in [sub], one file in [deep]. *)
Definition tree_list (url : string) : Z * list item :=
  if String.eqb url "https://api.github.com/repos/o/r/contents"
  then (200, [file_item "a.json"; Item "sub" "dir" None; file_item "notes.txt"])
  else if String.eqb url "https://api.github.com/repos/o/r/contents/sub"
  then (200, [file_item "b.json"; Item "deep" "dir" None])
  else if String.eqb url "https://api.github.com/repos/o/r/contents/sub/deep"
  then (200, [file_item "c.json"])
  else (404, []).

Definition no_page (url : string) : Z * html := (404, Html [] []).
Definition no_api (url : string) (params headers : gmap string string) : Z * json :=
  (404, JNull).

Definition tree_world : World :=
  {| list_dir := tree_list; raw := demo_raw; page := no_page; api_get := no_api |}.




(** A site whose root links three images and the page [sub.html]; that
    page embeds two images and links a further page.  On [twin.html] the two
    levels name the same image. *)
Definition site_page (url : string) : Z * html :=
  if String.eqb url "https://site.example/"
  then (200, Html [Some "a.png"; Some "sub.html"; Some "b.jpg"; Some "c.webp"]
               [Some "logo.png"])
  else if String.eqb url "https://site.example/sub.html"
  then (200, Html [Some "deeper.html"] [Some "x.png"; Some "y.png"])
  else if String.eqb url "https://site.example/twin/"
  then (200, Html [Some "a.png"; Some "b.jpg"; Some "c.webp"; Some "more.html"] [])
  else if String.eqb url "https://site.example/twin/more.html"
  then (200, Html [] [Some "a.png"; Some "z.png"])
  else (404, Html [] []).

Definition site_world : World :=
  {| list_dir := tree_list; raw := demo_raw; page := site_page; api_get := no_api |}.

Definition empty_state : state := State ∅ ∅ [].


End Demo.

(** ** Notions the properties are stated with *)

(** What a finished run of the hosted-tree crawler adds to the trace,
    against its two counters: [t] downloads requested, [d] files written. *)
Definition counted (st st' : state) (t d : Z) : Prop :=
  0 <= d <= t /\
  Z.of_nat (length (GithubCrawler.fetched (trace st')))
  = Z.of_nat (length (GithubCrawler.fetched (trace st))) + t /\
  Z.of_nat (length (writes (trace st')))
  = Z.of_nat (length (writes (trace st))) + d.

(** A web page answers without an HTTP error. *)
Definition page_ok (w : World) (url : string) : bool :=
  negb ((400 <=? fst (page w url)) && (fst (page w url) <? 600)).

(** The image URLs the example pages contribute, in page order; a page
    that answers with an error contributes none. *)
Definition pages_yield `{PyLib} (w : World) (pages : list string) : list string :=
  flat_map (fun u => if page_ok w u
                     then ComfyCrawler.page_images u (snd (page w u)) else [])
           pages.


(** An image given as several text records separated by SOH, each record
    as the reference decoder reads it; a later record replaces an earlier
    one with the same keyword. *)
Definition text_records (data : string) : option (gmap string string) :=
  foldl (fun acc part =>
           match acc, PyRef.text_record part with
           | Some m, Some r => Some (r ∪ m)
           | _, _ => None
           end)
        (Some ∅) (PyStr.split data "001").

(** The reference library with that decoder. *)
Definition records_lib : PyLib := {|
  json_loads := PyRef.loads;
  json_dumps := PyRef.dumps;
  b64decode_utf8 := PyRef.b64decode_text;
  image_info := text_records;
  urlparse_path := PyRef.url_path;
  urljoin := PyRef.url_join
|}.

(** An image with a JSON [workflow] record and a plain-text [parameters]
    record. *)
Definition two_field_image : string :=
  "workflow" +:+ Demo.nul +:+ "[1, 2]" +:+ String "001" "" +:+
  "parameters" +:+ Demo.nul +:+ "Steps: 20, Sampler: Euler".

(** The options of the catalog command line that shape a search, as
    [argparse] hands them to [main]: the three list options are still
    comma-separated text. *)
Record cli_options : Type := CliOptions {
  opt_query : option string;
  opt_limit : Z;
  opt_page : Z;
  opt_nsfw : option string;
  opt_sort : option string;
  opt_period : option string;
  opt_types : option string;
  opt_baseModels : option string;
  opt_tags : option string;
  opt_username : option string
}.

(** [args.types.split(',') if args.types else None] *)
Definition split_list (v : option string) : option (list string) :=
  match v with
  | Some s => if PyStr.truthy s then Some (PyStr.split s ",") else None
  | None => None
  end.

(** The keyword arguments [main] calls [search_models] with. *)
Definition search_args_of (o : cli_options) : Civitai.search_args :=
  Civitai.SearchArgs (opt_query o) (opt_limit o) (opt_page o) (opt_nsfw o)
    (opt_sort o) (opt_period o) (split_list (opt_types o))
    (split_list (opt_baseModels o)) (split_list (opt_tags o)) (opt_username o).

(** A string option as a request parameter: sent when not empty. *)
Definition sent (v : option string) : option string :=
  match v with
  | Some s => if PyStr.truthy s then Some s else None
  | None => None
  end.




(** The value under [k] after an optional assignment to [key]: the
    assigned value when [key] is [k] and one was given, else what was
    there. *)
Definition param_at (key k : string) (v rest : option string) : option string :=
  if decide (key = k) then match v with Some s => Some s | None => rest end
  else rest.

(** * Properties *)

(** ** Strings *)

Section StringFacts.
Import PyStr.

Lemma sapp_cons (c : ascii) (s t : string) :
  String c s +:+ t = String c (s +:+ t).
Proof. reflexivity. Qed.

Lemma sapp_nil_l (t : string) : "" +:+ t = t.
Proof. reflexivity. Qed.


Lemma sapp_assoc (a b c : string) : (a +:+ b) +:+ c = a +:+ (b +:+ c).
Proof. induction a as [|x a IH]; [reflexivity | now rewrite !sapp_cons, IH]. Qed.

Lemma length_sapp (a b : string) :
  String.length (a +:+ b) = (String.length a + String.length b)%nat.
Proof.
  induction a as [|x a IH]; [reflexivity|].
  rewrite sapp_cons. simpl. now rewrite IH.
Qed.

Lemma take_sapp (a b : string) : take (String.length a) (a +:+ b) = a.
Proof.
  induction a as [|x a IH]; [now destruct b|].
  rewrite sapp_cons. simpl. now rewrite IH.
Qed.

Lemma drop_sapp (a b : string) : drop (String.length a) (a +:+ b) = b.
Proof. induction a as [|x a IH]; [reflexivity | exact IH]. Qed.

Lemma all_chars_app p (a b : string) :
  all_chars p (a +:+ b) = all_chars p a && all_chars p b.
Proof.
  induction a as [|x a IH]; [reflexivity|].
  rewrite sapp_cons. simpl. now rewrite IH, andb_assoc.
Qed.

End StringFacts.

(** ** The matcher *)

Section MatcherFacts.
Import PyStr Re.
Context {R : Type}.
Implicit Types (k : string -> list string -> option R).

Lemma lit_match_app (l s : string) : lit_match l (l +:+ s) = Some s.
Proof.
  induction l as [|c l IH]; [reflexivity|].
  rewrite sapp_cons. simpl. now rewrite Ascii.eqb_refl.
Qed.

Lemma consumed_app (a rest : string) : consumed (a +:+ rest) rest = a.
Proof.
  unfold consumed. rewrite length_sapp.
  replace (String.length a + String.length rest - String.length rest)%nat
    with (String.length a) by lia.
  apply take_sapp.
Qed.

(** A greedy run takes all of [a] when the continuation accepts what is
    left. *)
Lemma star_k_greedy p (a rest : string) (k1 : string -> option R) r :
  all_chars p a = true -> stops p rest -> k1 rest = Some r ->
  star_k p (a +:+ rest) k1 = Some r.
Proof.
  intros Ha Hstop Hk. induction a as [|c a IH].
  - rewrite sapp_nil_l. destruct rest as [|c rest]; [exact Hk|].
    simpl in *. now rewrite Hstop.
  - rewrite sapp_cons. simpl in *.
    apply andb_prop in Ha as [Hc Ha]. rewrite Hc, (IH Ha). reflexivity.
Qed.


Lemma rmatch_Cat (r1 r2 : regex) (s : string) caps k :
  rmatch (r1 ⋅ r2) s caps k = rmatch r1 s caps (fun t caps' => rmatch r2 t caps' k).
Proof. reflexivity. Qed.

Lemma rmatch_Lit_app (l s : string) caps k :
  rmatch (Lit l) (l +:+ s) caps k = k s caps.
Proof. simpl. now rewrite lit_match_app. Qed.

Lemma rmatch_Plus_greedy p (a rest : string) caps k r :
  truthy a = true -> all_chars p a = true -> stops p rest ->
  k rest caps = Some r ->
  rmatch (Plus p) (a +:+ rest) caps k = Some r.
Proof.
  intros Hne Ha Hstop Hk. destruct a as [|c a]; [discriminate|].
  rewrite sapp_cons. simpl in *. apply andb_prop in Ha as [Hc Ha]. rewrite Hc.
  now apply star_k_greedy.
Qed.

Lemma rmatch_Grp_Plus_greedy p (a rest : string) caps k r :
  truthy a = true -> all_chars p a = true -> stops p rest ->
  k rest (caps ++ [a]) = Some r ->
  rmatch (Grp (Plus p)) (a +:+ rest) caps k = Some r.
Proof.
  intros Hne Ha Hstop Hk. cbn [rmatch].
  apply (rmatch_Plus_greedy p a rest caps
           (fun t caps' => k t (caps' ++ [consumed (a +:+ rest) t])));
    try assumption.
  now rewrite consumed_app.
Qed.


End MatcherFacts.

Section GithubUrl.
Import PyStr Re GithubCrawler.

Ltac split_mem H :=
  repeat (apply elem_of_cons in H as [-> | H]); [.. | now apply elem_of_nil in H].

Ltac sapp := rewrite ?sapp_cons, ?sapp_nil_l.

Lemma rmatch_prefix_some {R} (scheme www : string) (rest : regex) (s : string)
    caps (k : string -> list string -> option R) x :
  scheme ∈ [""; "http://"; "https://"] -> www ∈ [""; "www."] ->
  rmatch rest s caps k = Some x ->
  rmatch (Opt (Lit "http" ⋅ Opt (Lit "s") ⋅ Lit "://") ⋅ Opt (Lit "www.") ⋅
          Lit "github.com/" ⋅ rest)
         (scheme +:+ www +:+ "github.com/" +:+ s) caps k = Some x.
Proof.
  intros Hs Hw Hrest. split_mem Hs; split_mem Hw; sapp; simpl; now rewrite Hrest.
Qed.


Lemma segment_inv (x : string) :
  is_segment x = true -> truthy x = true /\ all_chars not_slash x = true.
Proof. unfold is_segment. intros H. now apply andb_prop in H. Qed.

Lemma stops_slash (s : string) : stops not_slash ("/" +:+ s).
Proof. reflexivity. Qed.

(** [basic_pattern] on a repository URL, bare or followed by a path. *)
Lemma basic_pattern_match (scheme www owner repo tail : string) :
  scheme ∈ [""; "http://"; "https://"] -> www ∈ [""; "www."] ->
  is_segment owner = true -> is_segment repo = true ->
  stops not_slash tail ->
  re_match basic_pattern
    (scheme +:+ www +:+ "github.com/" +:+ owner +:+ "/" +:+ repo +:+ tail)
  = Some [owner; repo].
Proof.
  intros Hs Hw [Ho1 Ho2]%segment_inv [Hr1 Hr2]%segment_inv Htail.
  unfold re_match, basic_pattern.
  apply rmatch_prefix_some; [assumption..|].
  rewrite rmatch_Cat.
  apply rmatch_Grp_Plus_greedy; [assumption.. | apply stops_slash |].
  rewrite rmatch_Cat, rmatch_Lit_app.
  now apply rmatch_Grp_Plus_greedy.
Qed.




Lemma split_no_sep (s : string) (c : ascii) :
  all_chars (fun x => negb (Ascii.eqb x c)) s = true -> split s c = [s].
Proof.
  induction s as [|a s IH]; [reflexivity|].
  cbn -[Ascii.eqb]. intros [Ha Hs]%andb_prop.
  rewrite (IH Hs). now destruct (Ascii.eqb a c).
Qed.



End GithubUrl.

(** ** The effect monad *)

Section MonadFacts.
Context {A B : Type}.

Lemma bind_ok (m : M A) (k : A -> M B) st a st' :
  m st = (Ok a, st') -> bind m k st = k a st'.
Proof. unfold bind. now intros ->. Qed.

Lemma bind_raise (m : M A) (k : A -> M B) st e st' :
  m st = (Raise e, st') -> bind m k st = (Raise e, st').
Proof. unfold bind. now intros ->. Qed.

End MonadFacts.

(** ** The hosted-tree crawler *)

Section GithubTree.
Import PyStr PosixPath GithubCrawler.
Context `{PyLib} (w : World).







End GithubTree.

Section TreePerm.
Import GithubCrawler.


End TreePerm.

Section GithubClaims.
Import PyStr PosixPath GithubCrawler.



End GithubClaims.

Section GithubFailure.
Import PyStr PosixPath GithubCrawler.
Context `{PyLib} (w : World).



End GithubFailure.

Section TraceGrows.
Import PyStr PosixPath GithubCrawler.
Context `{PyLib} (w : World).








End TraceGrows.

Section GithubFailureClaims.
Import PyStr PosixPath GithubCrawler.




End GithubFailureClaims.

(** ** Metadata extraction *)

Section Extraction.
Import PyStr PosixPath.
Context `{PyLib}.

(** The three copies of [extract_workflow_from_image] in terms of the
    embedded payload. *)
Lemma github_extract_payload (image_data : string) :
  GithubCrawler.extract_workflow_from_image image_data
  = match embedded_payload image_data with
    | Some d => if truthy d then json_loads d else None
    | None => None
    end.
Proof.
  unfold GithubCrawler.extract_workflow_from_image, embedded_payload.
  destruct (image_info image_data) as [info|]; [|reflexivity].
  destruct (info !! "parameters"); [reflexivity|].
  destruct (info !! "workflow"); reflexivity.
Qed.

Lemma comfy_extract_payload (image_path image_data : string) (st : state) :
  files st !! image_path = Some image_data ->
  ComfyCrawler.extract_workflow_from_image image_path st
  = match embedded_payload image_data with
    | Some d => if truthy d then json_loads d else None
    | None => None
    end.
Proof.
  intros Hf. unfold ComfyCrawler.extract_workflow_from_image, embedded_payload.
  rewrite Hf.
  destruct (image_info image_data) as [info|]; [|reflexivity].
  destruct (info !! "parameters"); [reflexivity|].
  destruct (info !! "workflow"); reflexivity.
Qed.

Lemma templates_extract_payload (image_data : string) (st : state) :
  ParseTemplates.extract_workflow_from_image image_data st
  = match embedded_payload image_data with
    | Some d =>
        if truthy d then
          match json_loads d with
          | Some v => (Ok (Some v), st)
          | None => (Raise (NameError "logger"), st)
          end
        else (Raise (NameError "logger"), st)
    | None => (Raise (NameError "logger"), st)
    end.
Proof.
  unfold ParseTemplates.extract_workflow_from_image, embedded_payload.
  destruct (image_info image_data) as [info|]; [|reflexivity].
  destruct (info !! "parameters") as [d|].
  - destruct (truthy d); [|reflexivity]. now destruct (json_loads d).
  - destruct (info !! "workflow") as [d|]; [|reflexivity].
    destruct (truthy d); [|reflexivity]. now destruct (json_loads d).
Qed.

Lemma github_extract_parses (image_data : string) (v : json) :
  parses_to image_data v ->
  GithubCrawler.extract_workflow_from_image image_data = Some v.
Proof.
  intros (d & Hp & Ht & Hl). now rewrite github_extract_payload, Hp, Ht.
Qed.

Lemma comfy_extract_parses (image_path image_data : string) (v : json) st :
  files st !! image_path = Some image_data ->
  parses_to image_data v ->
  ComfyCrawler.extract_workflow_from_image image_path st = Some v.
Proof.
  intros Hf (d & Hp & Ht & Hl).
  now rewrite (comfy_extract_payload _ _ _ Hf), Hp, Ht.
Qed.

Lemma templates_extract_parses (image_data : string) (v : json) st :
  parses_to image_data v ->
  ParseTemplates.extract_workflow_from_image image_data st = (Ok (Some v), st).
Proof.
  intros (d & Hp & Ht & Hl). now rewrite templates_extract_payload, Hp, Ht, Hl.
Qed.

End Extraction.

Section FalsyWorkflow.
Import PyStr PosixPath.

(** C10. An image whose embedded metadata parses to a falsy JSON value
    (null, false, zero, the empty string, the empty list or the empty
    object) is treated as an image without a workflow.  In the hosted-tree
    crawler [download_file] returns [None] and the loop of
    [process_directory] counts the file without saving anything; in the
    web-page crawler [save_workflow_as_json] returns [None] and leaves the
    state as it was, and the loop over the images skips the image; in
    [parse_workflow_templates.main] the loop prints that no metadata was
    found and writes nothing. *)
Theorem falsy_workflow_is_dropped `{PyLib} (w : World)
    (image_data : string) (v : json) :
  parses_to image_data v ->
  json_truthy v = false ->
  (forall (it : item) (u : string) (st : state),
      type it = "file" ->
      GithubCrawler.wanted "image" it = true ->
      download_url it = Some u ->
      raw w u = (200, image_data) ->
      GithubCrawler.download_file w it "image" st
      = (Ok None, State (files st) (dirs st) (EvGet u :: trace st)) /\
      forall recurse path out recursive t d,
        GithubCrawler.process_items w recurse path out recursive "image" [it] t d st
        = (Ok (t + 1, d), State (files st) (dirs st) (EvGet u :: trace st))) /\
  (forall (image_path dir : string) (saved : list string) (st : state),
      ComfyCrawler.save_workflow_as_json (Some v) image_path dir st = (Ok None, st) /\
      (files st !! image_path = Some image_data ->
       ComfyCrawler.save_all [image_path] dir saved st = (Ok saved, st))) /\
  (forall (filename : string) (rest : list string) (st : state),
      endswith (lower filename) ".png" = true ->
      files st !! join ParseTemplates.template_dir filename = Some image_data ->
      ParseTemplates.main_loop (filename :: rest) st
      = ParseTemplates.main_loop rest
          (State (files st) (dirs st)
             (EvPrint ("No workflow metadata found in " +:+ filename)
              :: EvPrint ("Processing " +:+ filename +:+ "...") :: trace st))).
Proof.
  intros Hparse Hfalsy. split; [|split].
  - intros it u st Htype Hwant Hurl Hraw.
    assert (Hdl : GithubCrawler.download_file w it "image" st
                  = (Ok None, State (files st) (dirs st) (EvGet u :: trace st))).
    { unfold GithubCrawler.download_file. rewrite Htype. cbn [String.eqb negb].
      change (String.eqb "file" "file") with true. cbn [negb].
      change (String.eqb "image" GithubCrawler.FILE_TYPE_JSON) with false.
      change (String.eqb "image" GithubCrawler.FILE_TYPE_IMAGE) with true.
      cbn [andb].
      unfold GithubCrawler.wanted in Hwant.
      change (String.eqb "image" GithubCrawler.FILE_TYPE_JSON) with false in Hwant.
      change (String.eqb "image" GithubCrawler.FILE_TYPE_IMAGE) with true in Hwant.
      cbn [andb orb] in Hwant. rewrite Hwant. cbn [negb].
      rewrite Hurl. unfold GithubCrawler.requests_get, bind, emit, ret.
      rewrite Hraw. change (200 =? 200) with true. cbn [negb].
      rewrite (github_extract_parses _ _ Hparse). cbn [pyval_truthy].
      now rewrite Hfalsy. }
    split; [exact Hdl|].
    intros recurse path out recursive t d.
    cbn [GithubCrawler.process_items]. rewrite Htype.
    change (String.eqb "file" "file") with true. cbv iota. rewrite Hwant.
    now rewrite (bind_ok _ _ _ _ _ Hdl).
  - intros image_path dir saved st.
    assert (Hsave : forall s, ComfyCrawler.save_workflow_as_json (Some v) image_path dir s
                              = (Ok None, s)).
    { intros s. unfold ComfyCrawler.save_workflow_as_json. cbn [pyval_truthy].
      now rewrite Hfalsy. }
    split; [apply Hsave|].
    intros Hfile. cbn [ComfyCrawler.save_all]. unfold bind at 1.
    rewrite (comfy_extract_parses _ _ _ _ Hfile Hparse). cbn [pyval_truthy].
    now rewrite Hfalsy.
  - intros filename rest st Hpng Hfile.
    cbn [ParseTemplates.main_loop]. rewrite Hpng.
    unfold bind at 1. cbn [emit]. unfold bind at 1. cbn [files].
    rewrite Hfile. cbn [default]. unfold bind at 1.
    rewrite (templates_extract_parses _ _ _ Hparse). unfold bind at 1.
    cbn [pyval_truthy]. rewrite Hfalsy. reflexivity.
Qed.

End FalsyWorkflow.

Section FalsyWitness.

(** The theorem at an image whose [workflow] field is the empty object. *)
Lemma falsy_workflow_is_dropped_witness :
  parses_to Demo.falsy_image (JObj []) /\
  GithubCrawler.download_file Demo.tree_world (Demo.file_item "empty.png") "image"
    Demo.empty_state
  = (Ok None, State ∅ ∅ [EvGet "https://raw.example/empty.png"]).
Proof.
  assert (Hp : parses_to Demo.falsy_image (JObj [])).
  { exists "{}". repeat split; vm_compute; reflexivity. }
  split; [exact Hp|].
  destruct (falsy_workflow_is_dropped Demo.tree_world Demo.falsy_image (JObj [])
              Hp eq_refl) as [Hgithub _].
  destruct (Hgithub (Demo.file_item "empty.png") "https://raw.example/empty.png"
              Demo.empty_state eq_refl) as [Hdl _];
    [vm_compute; reflexivity | reflexivity | reflexivity | exact Hdl].
Defined.

End FalsyWitness.

Section Base64Fallback.
Import PyStr.

(** C3 on the code.  Take an image whose payload does not parse as JSON
    but is the base64 text of a JSON document [v].  No copy of
    [extract_workflow_from_image] decodes it: the hosted-tree and web-page
    crawlers return [None], [parse_workflow_templates] ends in [NameError]
    (its handler logs through a name the module never binds), and
    [download_file] gives no document.  [try_decode_data], which no function
    calls, recovers [v] from the same payload. *)
Theorem base64_payload_is_not_decoded `{PyLib} (w : World)
    (image_data d s : string) (v : json) :
  embedded_payload image_data = Some d ->
  truthy d = true ->
  json_loads d = None ->
  b64decode_utf8 d = Some s ->
  json_loads s = Some v ->
  GithubCrawler.extract_workflow_from_image image_data = None /\
  (forall image_path st,
      files st !! image_path = Some image_data ->
      ComfyCrawler.extract_workflow_from_image image_path st = None) /\
  (forall st,
      ParseTemplates.extract_workflow_from_image image_data st
      = (Raise (NameError "logger"), st)) /\
  (forall it u st,
      type it = "file" ->
      GithubCrawler.wanted "image" it = true ->
      download_url it = Some u ->
      raw w u = (200, image_data) ->
      fst (GithubCrawler.download_file w it "image" st) = Ok None) /\
  ParseTemplates.try_decode_data (inl d) = Some v.
Proof.
  intros Hp Ht Hd Hb Hs.
  assert (Hx : GithubCrawler.extract_workflow_from_image image_data = None)
    by now rewrite github_extract_payload, Hp, Ht.
  split; [exact Hx|]. split; [|split; [|split]].
  - intros image_path st Hf. now rewrite (comfy_extract_payload _ _ _ Hf), Hp, Ht.
  - intros st. now rewrite templates_extract_payload, Hp, Ht, Hd.
  - intros it u st Htype Hwant Hurl Hraw.
    unfold GithubCrawler.download_file. rewrite Htype.
    change (String.eqb "file" "file") with true. cbn [negb].
    change (String.eqb "image" GithubCrawler.FILE_TYPE_JSON) with false.
    change (String.eqb "image" GithubCrawler.FILE_TYPE_IMAGE) with true.
    cbn [andb].
    unfold GithubCrawler.wanted in Hwant.
    change (String.eqb "image" GithubCrawler.FILE_TYPE_JSON) with false in Hwant.
    change (String.eqb "image" GithubCrawler.FILE_TYPE_IMAGE) with true in Hwant.
    cbn [andb orb] in Hwant. rewrite Hwant. cbn [negb].
    rewrite Hurl. unfold GithubCrawler.requests_get, bind, emit, ret.
    rewrite Hraw. change (200 =? 200) with true. cbn [negb].
    now rewrite Hx.
  - unfold ParseTemplates.try_decode_data. now rewrite Hd, Hb.
Qed.

(** The failing input: the [workflow] field holds [eyJhIjogMX0=], the base64
    text of a JSON object with the key [a] and the value 1.  Run with the
    reference library. *)
Lemma base64_payload_is_not_decoded_witness :
  embedded_payload Demo.b64_image = Some "eyJhIjogMX0=" /\
  json_loads "eyJhIjogMX0=" = None /\
  GithubCrawler.extract_workflow_from_image Demo.b64_image = None /\
  fst (GithubCrawler.download_file Demo.tree_world (Demo.file_item "b64.png")
         "image" Demo.empty_state) = Ok None /\
  ParseTemplates.try_decode_data (inl "eyJhIjogMX0=")
  = Some (JObj [("a", JInt 1)]).
Proof.
  split; [vm_compute; reflexivity|]. split; [vm_compute; reflexivity|].
  destruct (base64_payload_is_not_decoded Demo.tree_world Demo.b64_image
              "eyJhIjogMX0=" (Demo.b64_text) (JObj [("a", JInt 1)]))
    as (Hx & _ & _ & Hdl & Htry); try (vm_compute; reflexivity).
  split; [exact Hx|]. split; [|exact Htry].
  apply (Hdl (Demo.file_item "b64.png") "https://raw.example/b64.png");
    vm_compute; reflexivity.
Defined.

End Base64Fallback.

(** ** Persistence *)

Section Persist.
Import PyStr PosixPath.





End Persist.

(** ** Paths *)

Section PathFacts.
Import PyStr PosixPath.

Lemma rfind_nat_none (s : string) (c : ascii) :
  all_chars (is_not c) s = true -> rfind_nat s c = None.
Proof.
  induction s as [|a s IH]; [reflexivity|].
  cbn -[Ascii.eqb]. intros [Ha Hs]%andb_prop. rewrite (IH Hs).
  unfold is_not in Ha. now destruct (Ascii.eqb a c).
Qed.

(** The last [c] of [a c b] is the one in the middle when [b] has none. *)
Lemma rfind_nat_last (a b : string) (c : ascii) :
  all_chars (is_not c) b = true ->
  rfind_nat (a +:+ String c b) c = Some (String.length a).
Proof.
  intros Hb. induction a as [|x a IH].
  - rewrite sapp_nil_l. cbn -[Ascii.eqb].
    now rewrite (rfind_nat_none b c Hb), Ascii.eqb_refl.
  - rewrite sapp_cons. cbn -[Ascii.eqb]. now rewrite IH.
Qed.


Lemma rfind_last (a b : string) (c : ascii) :
  all_chars (is_not c) b = true ->
  rfind (a +:+ String c b) c = Z.of_nat (String.length a).
Proof. intros Hb. unfold rfind. now rewrite rfind_nat_last. Qed.



Lemma stem_ext_inv (stem ext : string) :
  is_stem_ext stem ext = true ->
  truthy stem = true /\ truthy ext = true /\
  all_chars (is_not "/") stem = true /\ all_chars (is_not "/") ext = true /\
  all_chars (is_not ".") ext = true /\ all_chars is_dot stem = false.
Proof.
  unfold is_stem_ext. intros H.
  repeat (apply andb_prop in H as [H ?]).
  repeat split; try assumption. now apply negb_true_iff.
Qed.

Lemma stem_ext_no_sep (stem ext : string) :
  is_stem_ext stem ext = true ->
  all_chars (is_not "/") (stem +:+ "." +:+ ext) = true.
Proof.
  intros (_ & _ & Hs & He & _)%stem_ext_inv.
  rewrite all_chars_app, Hs. change ("." +:+ ext) with (String "." ext).
  cbn. exact He.
Qed.


Lemma path_name_plain (n : string) :
  all_chars (is_not "/") n = true -> n <> "" -> n <> "." -> path_name n = n.
Proof.
  intros Hn He Hd. unfold path_name. rewrite (split_no_sep n "/" Hn).
  cbn [List.filter].
  destruct (String.eqb_spec n ""); [contradiction|].
  destruct (String.eqb_spec n "."); [contradiction|]. reflexivity.
Qed.

Lemma stem_ext_name (stem ext : string) :
  is_stem_ext stem ext = true ->
  path_name (stem +:+ "." +:+ ext) = stem +:+ "." +:+ ext.
Proof.
  intros Hse. destruct (stem_ext_inv _ _ Hse) as (Hs & He & _).
  destruct stem as [|c stem]; [discriminate|].
  destruct ext as [|e ext]; [discriminate|].
  apply path_name_plain; [now apply stem_ext_no_sep | |]; rewrite sapp_cons.
  - intros Heq. discriminate Heq.
  - intros Heq. injection Heq as _ Heq.
    destruct stem; [|rewrite sapp_cons in Heq]; discriminate Heq.
Qed.

Lemma stem_ext_index (stem ext : string) :
  is_stem_ext stem ext = true ->
  let n := stem +:+ "." +:+ ext in
  let i := rfind n "." in
  i = Z.of_nat (String.length stem) /\
  (0 <? i) && (i <? Z.of_nat (String.length n) - 1) = true.
Proof.
  intros Hse n i.
  destruct (stem_ext_inv _ _ Hse) as (Hs & He & _ & _ & Hdot & _).
  assert (Hi : i = Z.of_nat (String.length stem)).
  { subst i n. change ("." +:+ ext) with (String "." ext). now apply rfind_last. }
  split; [exact Hi|]. rewrite Hi. subst n.
  rewrite length_sapp. change ("." +:+ ext) with (String "." ext). cbn [String.length].
  destruct stem; [discriminate|]. destruct ext; [discriminate|].
  cbn [String.length]. apply andb_true_intro. split; apply Z.ltb_lt; lia.
Qed.


Lemma suffix_stem_ext (stem ext : string) :
  is_stem_ext stem ext = true ->
  PosixPath.suffix (stem +:+ "." +:+ ext) = "." +:+ ext.
Proof.
  intros Hse. unfold PosixPath.suffix. rewrite (stem_ext_name _ _ Hse).
  destruct (stem_ext_index _ _ Hse) as [Hi Hin]. cbv zeta in Hi, Hin.
  rewrite Hin, Hi. unfold slice_from. rewrite Nat2Z.id. apply drop_sapp.
Qed.

End PathFacts.

Section Filenames.
Import PyStr PosixPath.

Lemma endswith_app (a b : string) : endswith (a +:+ b) b = true.
Proof.
  induction a as [|c a IH].
  - rewrite sapp_nil_l. destruct b; cbn [endswith]; now rewrite String.eqb_refl.
  - rewrite sapp_cons. cbn [endswith]. rewrite IH. apply orb_true_r.
Qed.




End Filenames.

(** ** The catalog tool *)

Section CatalogKey.
Import PyStr PosixPath Civitai.

Lemma truthy_ne (s : string) : truthy s = true <-> s <> "".
Proof. destruct s; cbn; split; congruence. Qed.

Lemma get_api_key_missing (environ : gmap string string) (st : state) :
  environ !! "CIVITAI_API_KEY" = None \/ environ !! "CIVITAI_API_KEY" = Some "" ->
  get_api_key environ st
  = (Raise (SystemExit 1),
     State (files st) (dirs st)
       (EvPrint "Please set it using: export CIVITAI_API_KEY='your_api_key'"
        :: EvPrint "Error: CIVITAI_API_KEY environment variable not set."
        :: trace st)).
Proof. intros [He | He]; unfold get_api_key; rewrite He; reflexivity. Qed.

Lemma get_api_key_present (environ : gmap string string) (k : string) (st : state) :
  environ !! "CIVITAI_API_KEY" = Some k -> k <> "" ->
  get_api_key environ st = (Ok k, st).
Proof.
  intros He Hk%truthy_ne. unfold get_api_key. now rewrite He, Hk.
Qed.

Lemma auth_headers_key (k : string) :
  k <> "" -> auth_headers (Some k) = {[ "Authorization" := "Bearer " +:+ k ]}.
Proof. intros Hk%truthy_ne. unfold auth_headers. now rewrite Hk. Qed.

Lemma search_models_request `{PyLib} (w : World) (sa : search_args)
    (api_key : option string) (st : state) :
  api_requests (trace (snd (search_models w sa api_key st)))
  = ("https://civitai.com/api/v1/models", search_params sa, auth_headers api_key)
    :: api_requests (trace st).
Proof.
  unfold search_models, bind, emit. cbn [trace files dirs].
  destruct (api_get w _ _ _) as [status body].
  destruct ((400 <=? status) && (status <? 600)); reflexivity.
Qed.

Lemma get_model_versions_request `{PyLib} (w : World) (model_id : Z)
    (api_key : option string) (st : state) :
  api_requests (trace (snd (get_model_versions w model_id api_key st)))
  = ("https://civitai.com/api/v1/models/" +:+ pretty model_id, ∅,
     auth_headers api_key) :: api_requests (trace st).
Proof.
  unfold get_model_versions, bind, emit. cbn [trace files dirs].
  destruct (api_get w _ _ _) as [status body].
  destruct ((400 <=? status) && (status <? 600)); reflexivity.
Qed.

(** C4 (as the code has it). The program requires the key: with no
    [CIVITAI_API_KEY] in the environment, or an empty one, [main] prints an
    error and exits with status 1 before any request is made.  With a
    non-empty key the request of [main] carries the header
    [Authorization: Bearer <key>].  The request helper [search_models]
    itself sends the bearer header exactly when it is given a non-empty key
    and no header otherwise. *)
Theorem api_key_is_required `{PyLib} (w : World) (environ : gmap string string)
    (a : cli_args) (st : state) :
  (environ !! "CIVITAI_API_KEY" = None \/ environ !! "CIVITAI_API_KEY" = Some "" ->
   fst (main w environ a st) = Raise (SystemExit 1) /\
   api_requests (trace (snd (main w environ a st))) = api_requests (trace st)) /\
  (forall k, environ !! "CIVITAI_API_KEY" = Some k -> k <> "" ->
     exists url params,
       api_requests (trace (snd (main w environ a st)))
       = (url, params, {[ "Authorization" := "Bearer " +:+ k ]})
         :: api_requests (trace st)) /\
  (forall sa api_key,
     api_requests (trace (snd (search_models w sa api_key st)))
     = ("https://civitai.com/api/v1/models", search_params sa, auth_headers api_key)
       :: api_requests (trace st)) /\
  (forall api_key k,
     auth_headers api_key !! "Authorization" = Some ("Bearer " +:+ k)
     <-> api_key = Some k /\ k <> "") /\
  (forall api_key,
     api_key = None \/ api_key = Some "" -> auth_headers api_key = ∅).
Proof.
  split; [|split; [|split; [|split]]].
  - intros Hmiss. unfold main.
    rewrite (bind_raise _ _ _ _ _ (get_api_key_missing environ st Hmiss)).
    split; reflexivity.
  - intros k He Hk. unfold main.
    rewrite (bind_ok _ _ _ _ _ (get_api_key_present environ k st He Hk)).
    rewrite <- (auth_headers_key k Hk).
    destruct (arg_model_id a) as [model_id|].
    + destruct (model_id =? 0).
      * eexists _, _. unfold bind at 1.
        pose proof (search_models_request w (arg_search a) (Some k) st) as Hreq.
        destruct (search_models w (arg_search a) (Some k) st) as [[r| |] st'];
          exact Hreq.
      * eexists _, _. unfold bind at 1.
        pose proof (get_model_versions_request w model_id (Some k) st) as Hreq.
        destruct (get_model_versions w model_id (Some k) st) as [[r| |] st'];
          exact Hreq.
    + eexists _, _. unfold bind at 1.
      pose proof (search_models_request w (arg_search a) (Some k) st) as Hreq.
      destruct (search_models w (arg_search a) (Some k) st) as [[r| |] st'];
        exact Hreq.
  - intros sa api_key. apply search_models_request.
  - intros api_key k. unfold auth_headers. split.
    + destruct api_key as [k'|]; [|now rewrite lookup_empty].
      destruct (truthy k') eqn:Hk'; [|now rewrite lookup_empty].
      rewrite lookup_singleton_eq. intros [= Heq].
      apply String.app_inj in Heq. subst k'. split; [reflexivity|].
      now apply truthy_ne.
    + intros [-> Hk%truthy_ne]. rewrite Hk. apply lookup_singleton_eq.
  - intros api_key [-> | ->]; reflexivity.
Qed.

(** C4 as stated fails: with an empty environment the program ends with
    exit status 1, and no request has been made. *)
Lemma missing_key_exits :
  let run := main Demo.tree_world ∅
               (CliArgs None (SearchArgs (Some "cats") 10 1 None None None
                                None None None None))
               Demo.empty_state in
  fst run = Raise (SystemExit 1) /\ api_requests (trace (snd run)) = [].
Proof. split; vm_compute; reflexivity. Qed.

End CatalogKey.

Section CatalogKeyWitness.
Import Civitai.

(** The theorem at an environment that holds the key [secret]. *)
Lemma api_key_is_required_witness :
  exists url params,
    api_requests
      (trace (snd (main Demo.tree_world {[ "CIVITAI_API_KEY" := "secret" ]}
                     (CliArgs None (SearchArgs (Some "cats") 10 1 None None None
                                      None None None None))
                     Demo.empty_state)))
    = [(url, params, {[ "Authorization" := "Bearer secret" ]})].
Proof.
  destruct (api_key_is_required Demo.tree_world {[ "CIVITAI_API_KEY" := "secret" ]}
              (CliArgs None (SearchArgs (Some "cats") 10 1 None None None
                               None None None None))
              Demo.empty_state) as (_ & Hkey & _).
  apply (Hkey "secret"); [apply lookup_singleton_eq | discriminate].
Defined.

End CatalogKeyWitness.

Section CatalogDownload.
Import PyStr PosixPath Civitai.










End CatalogDownload.

(** ** The web-page crawler *)

Section WebPages.
Import PyStr PosixPath ComfyCrawler.
Context `{PyLib} (w : World).




End WebPages.


Section WebPageClaims.
Import PyStr PosixPath ComfyCrawler.


End WebPageClaims.

Section WebPageExamples.
Import ComfyCrawler.


(** The same image named on both levels is one candidate: four, not
    five. *)
Example duplicate_across_levels :
  exists l st',
    discover_images Demo.site_world "https://site.example/twin/" Demo.empty_state
    = (Ok l, st') /\
    l ≡ₚ ["https://site.example/twin/a.png"; "https://site.example/twin/b.jpg";
          "https://site.example/twin/c.webp"; "https://site.example/twin/z.png"].
Proof.
  eexists _, _. split; [vm_compute; reflexivity|].
  apply NoDup_Permutation.
  - apply (bool_decide_unpack _). vm_compute. exact I.
  - apply (bool_decide_unpack _). vm_compute. exact I.
  - intros x. rewrite !elem_of_cons, !elem_of_nil. tauto.
Qed.

End WebPageExamples.

(** ** Which URLs the hosted-tree crawler accepts *)

Section MatcherInversion.
Import PyStr Re.
Context {R : Type}.

Lemma lit_match_inv (l s s' : string) : lit_match l s = Some s' -> s = l +:+ s'.
Proof.
  revert s. induction l as [|a l IH]; intros s Hm; cbn -[Ascii.eqb] in Hm.
  - injection Hm as ->. now rewrite sapp_nil_l.
  - destruct s as [|b s]; [discriminate|].
    destruct (Ascii.eqb a b) eqn:E; [|discriminate].
    apply Ascii.eqb_eq in E as ->. rewrite sapp_cons. f_equal. now apply IH.
Qed.

(** A run of the class [p] splits the text in two. *)
Lemma star_k_inv p (s : string) (k : string -> option R) r :
  star_k p s k = Some r ->
  exists a rest, s = a +:+ rest /\ all_chars p a = true /\ k rest = Some r.
Proof.
  induction s as [|c s IH]; cbn; intros Hm.
  - exists "", "". now rewrite sapp_nil_l.
  - destruct (p c) eqn:Hp.
    + destruct (star_k p s k) as [r'|] eqn:Hs.
      * injection Hm as ->. destruct (IH eq_refl) as (a & rest & -> & Ha & Hk).
        exists (String c a), rest. rewrite sapp_cons. cbn. now rewrite Hp, Ha.
      * exists "", (String c s). now rewrite sapp_nil_l.
    + exists "", (String c s). now rewrite sapp_nil_l.
Qed.

Lemma star_k_some p (s : string) (k : string -> option R) :
  (forall t, is_Some (k t)) -> is_Some (star_k p s k).
Proof.
  intros Hk. induction s as [|c s IH]; cbn; [apply Hk|].
  destruct (p c); [|apply Hk].
  destruct IH as [r ->]. now eexists.
Qed.

(** In front of a continuation that cannot fail, the run is the longest
    one. *)
Lemma star_k_max p (s : string) (k : string -> option R) r :
  (forall t, is_Some (k t)) -> star_k p s k = Some r ->
  exists a rest,
    s = a +:+ rest /\ all_chars p a = true /\ stops p rest /\ k rest = Some r.
Proof.
  intros Hk. induction s as [|c s IH]; cbn; intros Hm.
  - exists "", "". now rewrite sapp_nil_l.
  - destruct (p c) eqn:Hp.
    + destruct (star_k_some p s k Hk) as [r' Hs]. rewrite Hs in Hm, IH.
      injection Hm as ->. destruct (IH eq_refl) as (a & rest & -> & Ha & Hst & Hr).
      exists (String c a), rest. rewrite sapp_cons. cbn. now rewrite Hp, Ha.
    + exists "", (String c s). now rewrite sapp_nil_l.
Qed.

Lemma rmatch_Lit_inv (l s : string) caps (k : string -> list string -> option R) x :
  rmatch (Lit l) s caps k = Some x -> exists s', s = l +:+ s' /\ k s' caps = Some x.
Proof.
  cbn [rmatch]. destruct (lit_match l s) as [s'|] eqn:Hl; [|discriminate].
  intros Hk. exists s'. split; [now apply lit_match_inv | exact Hk].
Qed.

Lemma rmatch_Opt_inv (r : regex) (s : string) caps
    (k : string -> list string -> option R) x :
  rmatch (Opt r) s caps k = Some x ->
  rmatch r s caps k = Some x \/ k s caps = Some x.
Proof.
  cbn [rmatch]. destruct (rmatch r s caps k) as [y|].
  - intros [= ->]. now left.
  - intros Hk. now right.
Qed.

Lemma rmatch_Plus_inv p (s : string) caps (k : string -> list string -> option R) x :
  rmatch (Plus p) s caps k = Some x ->
  exists a rest,
    s = a +:+ rest /\ truthy a = true /\ all_chars p a = true /\
    k rest caps = Some x.
Proof.
  cbn [rmatch]. destruct s as [|c s]; [discriminate|].
  destruct (p c) eqn:Hp; [|discriminate].
  intros (a & rest & -> & Ha & Hk)%star_k_inv.
  exists (String c a), rest. rewrite sapp_cons. cbn. now rewrite Hp, Ha.
Qed.

Lemma rmatch_Plus_max p (s : string) caps (k : string -> list string -> option R) x :
  (forall t, is_Some (k t caps)) ->
  rmatch (Plus p) s caps k = Some x ->
  exists a rest,
    s = a +:+ rest /\ truthy a = true /\ all_chars p a = true /\
    stops p rest /\ k rest caps = Some x.
Proof.
  intros Hk. cbn [rmatch]. destruct s as [|c s]; [discriminate|].
  destruct (p c) eqn:Hp; [|discriminate].
  intros (a & rest & -> & Ha & Hst & Hr)%star_k_max; [|exact Hk].
  exists (String c a), rest. rewrite sapp_cons. cbn. now rewrite Hp, Ha.
Qed.

Lemma rmatch_Grp_Plus_inv p (s : string) caps
    (k : string -> list string -> option R) x :
  rmatch (Grp (Plus p)) s caps k = Some x ->
  exists a rest,
    s = a +:+ rest /\ truthy a = true /\ all_chars p a = true /\
    k rest (caps ++ [a]) = Some x.
Proof.
  cbn [rmatch]. intros H. fold (rmatch (Plus p) s caps
    (fun t caps' => k t (caps' ++ [consumed s t]))) in H.
  apply rmatch_Plus_inv in H as (a & rest & -> & Hne & Ha & Hk).
  rewrite consumed_app in Hk. now exists a, rest.
Qed.

Lemma rmatch_Grp_Plus_max p (s : string) caps
    (k : string -> list string -> option R) x :
  (forall t c, is_Some (k t c)) ->
  rmatch (Grp (Plus p)) s caps k = Some x ->
  exists a rest,
    s = a +:+ rest /\ truthy a = true /\ all_chars p a = true /\
    stops p rest /\ k rest (caps ++ [a]) = Some x.
Proof.
  intros Htot. cbn [rmatch]. intros H. fold (rmatch (Plus p) s caps
    (fun t caps' => k t (caps' ++ [consumed s t]))) in H.
  apply rmatch_Plus_max in H as (a & rest & -> & Hne & Ha & Hst & Hk);
    [|intros t; apply Htot].
  rewrite consumed_app in Hk. now exists a, rest.
Qed.

End MatcherInversion.

Section Runs.
Import PyStr Re.

(** Every text starts with a longest run of the class [p]. *)
Lemma span_run p (s : string) :
  exists a rest, s = a +:+ rest /\ all_chars p a = true /\ stops p rest.
Proof.
  induction s as [|c s (a & rest & -> & Ha & Hst)].
  - exists "", "". now rewrite sapp_nil_l.
  - destruct (p c) eqn:Hp.
    + exists (String c a), rest. rewrite sapp_cons. cbn. now rewrite Hp, Ha.
    + exists "", (String c (a +:+ rest)). now rewrite sapp_nil_l.
Qed.

(** The longest run is unique. *)
Lemma run_unique p (a a' t t' : string) :
  all_chars p a = true -> stops p t ->
  all_chars p a' = true -> stops p t' ->
  a +:+ t = a' +:+ t' -> a = a' /\ t = t'.
Proof.
  revert a'. induction a as [|c a IH]; intros [|c' a'] Ha Ht Ha' Ht';
    rewrite ?sapp_cons, ?sapp_nil_l; intros Heq.
  - now split.
  - subst t. cbn in Ht, Ha'. apply andb_prop in Ha' as [Hc _]. congruence.
  - subst t'. cbn in Ht', Ha. apply andb_prop in Ha as [Hc _]. congruence.
  - injection Heq as -> Heq. cbn in Ha, Ha'.
    apply andb_prop in Ha as [_ Ha]. apply andb_prop in Ha' as [_ Ha'].
    destruct (IH a' Ha Ht Ha' Ht' Heq) as [-> ->]. now split.
Qed.

End Runs.

Section GithubUrlShape.
Import PyStr Re GithubCrawler.

Ltac split_mem H :=
  repeat (apply elem_of_cons in H as [-> | H]); [.. | now apply elem_of_nil in H].

Ltac mem := repeat first [apply list_elem_of_here | apply list_elem_of_further].

Lemma rmatch_prefix_inv {R} (rest : regex) (s : string) caps
    (k : string -> list string -> option R) x :
  rmatch (Opt (Lit "http" ⋅ Opt (Lit "s") ⋅ Lit "://") ⋅ Opt (Lit "www.") ⋅
          Lit "github.com/" ⋅ rest) s caps k = Some x ->
  exists scheme www s',
    scheme ∈ [""; "http://"; "https://"] /\ www ∈ [""; "www."] /\
    s = scheme +:+ www +:+ "github.com/" +:+ s' /\
    rmatch rest s' caps k = Some x.
Proof.
  assert (Hwww : forall t,
    rmatch (Opt (Lit "www.") ⋅ Lit "github.com/" ⋅ rest) t caps k = Some x ->
    exists www s', www ∈ [""; "www."] /\ t = www +:+ "github.com/" +:+ s' /\
                   rmatch rest s' caps k = Some x).
  { intros t. rewrite rmatch_Cat. intros [H|H]%rmatch_Opt_inv.
    - apply rmatch_Lit_inv in H as (t1 & -> & H). rewrite rmatch_Cat in H.
      apply rmatch_Lit_inv in H as (s' & -> & H).
      exists "www.", s'. split; [mem | now split].
    - rewrite rmatch_Cat in H. apply rmatch_Lit_inv in H as (s' & -> & H).
      exists "", s'. split; [mem | now split]. }
  rewrite rmatch_Cat. intros [H|H]%rmatch_Opt_inv.
  - rewrite rmatch_Cat in H. apply rmatch_Lit_inv in H as (t1 & -> & H).
    rewrite rmatch_Cat in H. apply rmatch_Opt_inv in H as [H|H].
    + apply rmatch_Lit_inv in H as (t2 & -> & H).
      apply rmatch_Lit_inv in H as (t3 & -> & H).
      apply Hwww in H as (www & s' & Hw & -> & H).
      exists "https://", www, s'. split; [mem | now split].
    + apply rmatch_Lit_inv in H as (t3 & -> & H).
      apply Hwww in H as (www & s' & Hw & -> & H).
      exists "http://", www, s'. split; [mem | now split].
  - apply Hwww in H as (www & s' & Hw & -> & H).
    exists "", www, s'. split; [mem | now split].
Qed.

(** The optional scheme and [www.] are read off the text in one way. *)
Lemma prefix_unique (scheme www scheme' www' s s' : string) :
  scheme ∈ [""; "http://"; "https://"] -> www ∈ [""; "www."] ->
  scheme' ∈ [""; "http://"; "https://"] -> www' ∈ [""; "www."] ->
  scheme +:+ www +:+ "github.com/" +:+ s
  = scheme' +:+ www' +:+ "github.com/" +:+ s' ->
  s = s'.
Proof.
  intros Hs Hw Hs' Hw'.
  split_mem Hs; split_mem Hw; split_mem Hs'; split_mem Hw';
    rewrite ?sapp_cons, ?sapp_nil_l; intros Heq; now simplify_eq.
Qed.

(** What [basic_pattern] matches, and its two groups. *)
Lemma basic_pattern_sound (url : string) (m : list string) :
  re_match basic_pattern url = Some m ->
  exists scheme www owner repo tail,
    scheme ∈ [""; "http://"; "https://"] /\ www ∈ [""; "www."] /\
    is_segment owner = true /\ is_segment repo = true /\
    stops not_slash tail /\
    url = scheme +:+ www +:+ "github.com/" +:+ owner +:+ "/" +:+ repo +:+ tail /\
    m = [owner; repo].
Proof.
  unfold re_match, basic_pattern.
  intros (scheme & www & s' & Hs & Hw & -> & H)%rmatch_prefix_inv.
  rewrite rmatch_Cat in H.
  apply rmatch_Grp_Plus_inv in H as (owner & t1 & -> & Ho1 & Ho2 & H).
  rewrite rmatch_Cat in H. apply rmatch_Lit_inv in H as (t2 & -> & H).
  apply rmatch_Grp_Plus_max in H as (repo & tail & -> & Hr1 & Hr2 & Hst & H);
    [|now eexists].
  injection H as <-.
  exists scheme, www, owner, repo, tail. unfold is_segment.
  rewrite Ho1, Ho2, Hr1, Hr2. repeat split; assumption.
Qed.

(** What [tree_pattern] matches, and its two groups. *)
Lemma tree_pattern_sound (url : string) (m : list string) :
  re_match tree_pattern url = Some m ->
  exists scheme www owner repo branch path rest,
    scheme ∈ [""; "http://"; "https://"] /\ www ∈ [""; "www."] /\
    is_segment owner = true /\ is_segment repo = true /\
    is_segment branch = true /\ is_tree_path path = true /\
    stops not_newline rest /\
    url = scheme +:+ www +:+ "github.com/" +:+ owner +:+ "/" +:+ repo +:+
          "/tree/" +:+ branch +:+ "/" +:+ path +:+ rest /\
    m = [branch; path].
Proof.
  unfold re_match, tree_pattern.
  intros (scheme & www & s' & Hs & Hw & -> & H)%rmatch_prefix_inv.
  rewrite rmatch_Cat in H.
  apply rmatch_Plus_inv in H as (owner & t1 & -> & Ho1 & Ho2 & H).
  rewrite rmatch_Cat in H. apply rmatch_Lit_inv in H as (t2 & -> & H).
  rewrite rmatch_Cat in H.
  apply rmatch_Plus_inv in H as (repo & t3 & -> & Hr1 & Hr2 & H).
  rewrite rmatch_Cat in H. apply rmatch_Lit_inv in H as (t4 & -> & H).
  rewrite rmatch_Cat in H.
  apply rmatch_Grp_Plus_inv in H as (branch & t5 & -> & Hb1 & Hb2 & H).
  rewrite rmatch_Cat in H. apply rmatch_Lit_inv in H as (t6 & -> & H).
  apply rmatch_Grp_Plus_max in H as (path & rest & -> & Hp1 & Hp2 & Hst & H);
    [|now eexists].
  injection H as <-.
  exists scheme, www, owner, repo, branch, path, rest.
  unfold is_segment, is_tree_path.
  rewrite Ho1, Ho2, Hr1, Hr2, Hb1, Hb2, Hp1, Hp2.
  repeat split; assumption.
Qed.

(** [tree_pattern] on a URL with a [tree/<branch>/<path>] part, whatever
    follows the first line of the path. *)
Lemma tree_pattern_match_rest (scheme www owner repo branch path rest : string) :
  scheme ∈ [""; "http://"; "https://"] -> www ∈ [""; "www."] ->
  is_segment owner = true -> is_segment repo = true ->
  is_segment branch = true -> is_tree_path path = true ->
  stops not_newline rest ->
  re_match tree_pattern
    (scheme +:+ www +:+ "github.com/" +:+ owner +:+ "/" +:+ repo +:+
     "/tree/" +:+ branch +:+ "/" +:+ path +:+ rest)
  = Some [branch; path].
Proof.
  intros Hs Hw [Ho1 Ho2]%segment_inv [Hr1 Hr2]%segment_inv
    [Hb1 Hb2]%segment_inv [Hp1 Hp2]%andb_prop Hst.
  unfold re_match, tree_pattern.
  apply rmatch_prefix_some; [assumption..|].
  rewrite rmatch_Cat.
  apply rmatch_Plus_greedy; [assumption.. | apply stops_slash |].
  rewrite rmatch_Cat, rmatch_Lit_app, rmatch_Cat.
  apply rmatch_Plus_greedy; [assumption.. | reflexivity |].
  rewrite rmatch_Cat, rmatch_Lit_app, rmatch_Cat.
  apply rmatch_Grp_Plus_greedy; [assumption.. | apply stops_slash |].
  rewrite rmatch_Cat, rmatch_Lit_app.
  now apply rmatch_Grp_Plus_greedy.
Qed.

End GithubUrlShape.

Section GithubUrlTheorem.
Import PyStr Re GithubCrawler.

Lemma segment_app (x a : string) :
  is_segment x = true -> all_chars not_slash a = true ->
  is_segment (x +:+ a) = true.
Proof.
  intros [Hx1 Hx2]%segment_inv Ha. unfold is_segment.
  rewrite all_chars_app, Hx2, Ha. destruct x; [discriminate|].
  now rewrite sapp_cons.
Qed.

(** X1. [parse_github_url] accepts exactly the URLs of the shape
    [<scheme><www>github.com/<owner>/<repo><tail>], with [owner] and
    [repo] the two non-empty slash-free segments that follow the host
    ([repo] running to the next slash or to the end).  The path it returns
    is the first line of what follows [/tree/<branch>/] when [tail] starts
    so, and empty otherwise; the file system is not touched.  Every other
    URL raises [ValueError] naming the URL, and [main] then stops before it
    creates the output directory or sends a request. *)
Theorem parse_github_url_shape `{PyLib} (w : World) (url : string) (st : state) :
  (exists scheme www owner repo tail path st',
      scheme ∈ [""; "http://"; "https://"] /\ www ∈ [""; "www."] /\
      is_segment owner = true /\ is_segment repo = true /\
      stops not_slash tail /\
      url = scheme +:+ www +:+ "github.com/" +:+ owner +:+ "/" +:+ repo +:+ tail /\
      parse_github_url url st = (Ok (owner, repo, path), st') /\
      files st' = files st /\ dirs st' = dirs st /\
      ((path = "" /\ st' = st /\
        forall branch p rest,
          is_segment branch = true -> is_tree_path p = true ->
          stops not_newline rest ->
          tail <> "/tree/" +:+ branch +:+ "/" +:+ p +:+ rest) \/
       (exists branch rest,
          is_segment branch = true /\ is_tree_path path = true /\
          stops not_newline rest /\
          tail = "/tree/" +:+ branch +:+ "/" +:+ path +:+ rest)))
  \/
  ((forall scheme www owner repo tail,
       scheme ∈ [""; "http://"; "https://"] -> www ∈ [""; "www."] ->
       is_segment owner = true -> is_segment repo = true ->
       url <> scheme +:+ www +:+ "github.com/" +:+ owner +:+ "/" +:+ repo +:+ tail) /\
   parse_github_url url st
   = (Raise (ValueError ("Invalid GitHub URL: " +:+ url)), st) /\
   forall fuel a, arg_url a = url ->
     main w fuel a st = (Raise (ValueError ("Invalid GitHub URL: " +:+ url)), st)).
Proof.
  destruct (re_match basic_pattern url) as [m|] eqn:Hb.
  - left.
    destruct (basic_pattern_sound url m Hb)
      as (scheme & www & owner & repo & tail & Hs & Hw & Ho & Hr & Hst & Hurl & ->).
    exists scheme, www, owner, repo, tail.
    destruct (re_match tree_pattern url) as [tm|] eqn:Ht.
    + destruct (tree_pattern_sound url tm Ht)
        as (scheme' & www' & o' & r' & branch & path & rest & Hs' & Hw' & Ho' & Hr'
            & Hbr & Hp & Hrest & Hurl' & ->).
      pose proof Hurl' as Heq. rewrite Hurl in Heq.
      apply prefix_unique in Heq; [|assumption..].
      destruct (segment_inv _ Ho) as [_ Ho2]. destruct (segment_inv _ Ho') as [_ Ho2'].
      destruct (segment_inv _ Hr) as [_ Hr2]. destruct (segment_inv _ Hr') as [_ Hr2'].
      apply (run_unique not_slash) in Heq as [<- Heq];
        [|assumption | apply stops_slash | assumption | apply stops_slash].
      rewrite !sapp_cons, !sapp_nil_l in Heq. injection Heq as Heq.
      apply (run_unique not_slash) in Heq as [<- Htail];
        [|assumption | assumption | assumption | reflexivity].
      exists path, (State (files st) (dirs st)
        (EvPrint ("Detected branch: " +:+ branch +:+ ", path: " +:+ path) :: trace st)).
      repeat (split; [assumption|]).
      split; [|split; [reflexivity|split; [reflexivity|]]].
      * unfold parse_github_url. rewrite Hb, Ht. cbn.
        now rewrite (split_no_sep repo "/" Hr2).
      * right. exists branch, rest. now repeat split.
    + exists "", st. repeat (split; [assumption|]).
      split; [|split; [reflexivity|split; [reflexivity|]]].
      * unfold parse_github_url. now rewrite Hb, Ht.
      * left. split; [reflexivity|split; [reflexivity|]].
        intros branch p rest Hbr Hp Hrest ->. rewrite Hurl in Ht.
        now rewrite tree_pattern_match_rest in Ht.
  - right.
    assert (Hparse : parse_github_url url st
                     = (Raise (ValueError ("Invalid GitHub URL: " +:+ url)), st)).
    { unfold parse_github_url. now rewrite Hb. }
    split; [|split; [exact Hparse|]].
    + intros scheme www owner repo tail Hs Hw Ho Hr ->.
      destruct (span_run not_slash tail) as (a & rest & -> & Ha & Hst).
      rewrite <- (sapp_assoc repo a rest) in Hb.
      rewrite basic_pattern_match in Hb;
        [discriminate | assumption.. | now apply segment_app | assumption].
    + intros fuel a <-. unfold main. now rewrite (bind_raise _ _ _ _ _ Hparse).
Qed.

End GithubUrlTheorem.

(** ** What one download and one listing loop do, in any world *)

Section GithubEffects.
Import PyStr PosixPath GithubCrawler.
Context `{PyLib} (w : World).

(** The download of a wanted file either sends one request to the entry's
    URL and returns, or raises for want of a URL. *)
Lemma download_file_wanted (it : item) (ft : string) (st st' : state) r :
  type it = "file" -> wanted ft it = true ->
  download_file w it ft st = (Ok r, st') ->
  exists u, download_url it = Some u /\
            st' = State (files st) (dirs st) (EvGet u :: trace st).
Proof.
  intros Htype Hwant. unfold download_file. rewrite Htype.
  change (String.eqb "file" "file") with true. cbn [negb].
  unfold wanted in Hwant.
  assert (Hpass :
    String.eqb ft FILE_TYPE_JSON && negb (endswith (name it) ".json") = false /\
    String.eqb ft FILE_TYPE_IMAGE &&
      negb (bool_decide (lower (suffix (name it)) ∈ SUPPORTED_IMAGE_EXTENSIONS))
    = false).
  { destruct (String.eqb ft FILE_TYPE_JSON) eqn:Hj.
    - apply String.eqb_eq in Hj. subst ft.
      change (String.eqb FILE_TYPE_JSON FILE_TYPE_IMAGE) with false in *.
      cbn [andb orb] in *. rewrite orb_false_r in Hwant. now rewrite Hwant.
    - cbn [andb orb] in *. apply andb_prop in Hwant as [Hi Hext].
      now rewrite Hi, Hext. }
  destruct Hpass as [-> ->].
  destruct (download_url it) as [u|]; [|discriminate].
  unfold requests_get, bind, emit, ret. cbn [files dirs trace].
  destruct (raw w u) as [status body]. intros Hrun. exists u. split; [reflexivity|].
  repeat case_match; now simplify_eq.
Qed.

(** The outcomes of one call of [download_file]. *)
Lemma download_file_run (it : item) (ft : string) (st : state) :
  let run := download_file w it ft st in
  files (snd run) = files st /\ dirs (snd run) = dirs st /\
  (trace (snd run) = trace st \/
   exists u, download_url it = Some u /\ trace (snd run) = EvGet u :: trace st) /\
  (type it <> "file" -> run = (Ok None, st)) /\
  ((exists r, fst run = Ok r) \/
   (fst run = Raise MissingSchema /\ download_url it = None /\ snd run = st)) /\
  (forall u status body,
      download_url it = Some u -> raw w u = (status, body) -> status <> 200 ->
      fst run = Ok None) /\
  (forall n v,
      fst run = Ok (Some (n, v)) ->
      type it = "file" /\ endswith n ".json" = true /\
      exists u body, download_url it = Some u /\ raw w u = (200, body)).
Proof.
  cbv zeta. unfold download_file.
  destruct (String.eqb (type it) "file") eqn:Ht; cbn [negb].
  2:{ apply String.eqb_neq in Ht. cbn.
      repeat split; try reflexivity; try (now left); try (now left; eexists);
        try discriminate. }
  apply String.eqb_eq in Ht.
  destruct (String.eqb ft FILE_TYPE_JSON && negb (endswith (name it) ".json")) eqn:Hj.
  { cbn. repeat split; try reflexivity; try (now left); try (now left; eexists);
      try discriminate; try congruence. }
  destruct (String.eqb ft FILE_TYPE_IMAGE && negb _) eqn:Hi.
  { cbn. repeat split; try reflexivity; try (now left); try (now left; eexists);
      try discriminate; try congruence. }
  destruct (download_url it) as [u|] eqn:Hu.
  2:{ cbn. repeat split; try reflexivity; try (now left); try discriminate;
        try congruence. now right. }
  unfold requests_get, bind, emit, ret. cbn [files dirs trace].
  destruct (raw w u) as [status body] eqn:Hraw.
  destruct (negb (status =? 200)) eqn:Hs.
  { cbn. repeat split; try reflexivity; try (now left; eexists);
      try discriminate; try congruence. right. now exists u. }
  apply negb_false_iff, Z.eqb_eq in Hs. subst status.
  assert (Hfin : forall (r : option (string * json)),
    (forall n v, r = Some (n, v) -> endswith n ".json" = true) ->
    let run := (Ok r, State (files st) (dirs st) (EvGet u :: trace st)) in
    files (snd run) = files st /\ dirs (snd run) = dirs st /\
    (trace (snd run) = trace st \/
     exists u0, Some u = Some u0 /\ trace (snd run) = EvGet u0 :: trace st) /\
    (type it <> "file" -> run = (Ok None, st)) /\
    ((exists r0, fst run = Ok r0) \/
     (fst run = Raise MissingSchema /\ Some u = None /\ snd run = st)) /\
    (forall u0 status body0,
        Some u = Some u0 -> raw w u0 = (status, body0) -> status <> 200 ->
        fst run = Ok None) /\
    (forall n v,
        fst run = Ok (Some (n, v)) ->
        type it = "file" /\ endswith n ".json" = true /\
        exists u0 body0, Some u = Some u0 /\ raw w u0 = (200, body0))).
  { intros r Hr. cbn.
    split; [reflexivity|]. split; [reflexivity|].
    split; [right; now exists u|]. split; [congruence|].
    split; [left; now eexists|]. split.
    - intros u0 status body0 [= <-] Hraw' Hne. congruence.
    - intros n v [= ->]. split; [exact Ht|]. split; [now apply (Hr n v)|].
      now exists u, body. }
  destruct (String.eqb ft FILE_TYPE_JSON) eqn:Hft.
  - cbn [andb] in Hj. apply negb_false_iff in Hj.
    destruct (json_loads body) as [v|]; apply Hfin; intros n v' Heq; simplify_eq.
    exact Hj.
  - destruct (pyval_truthy _); [|apply Hfin; discriminate].
    destruct (extract_workflow_from_image body); apply Hfin; intros n v' Heq;
      simplify_eq. apply endswith_app.
Qed.

End GithubEffects.

Section GithubEffectClaims.
Import PyStr PosixPath GithubCrawler.

(** X2. One call of [download_file], whatever the answer to its request:
    it writes no file and creates no directory; it sends at most one
    request, to the entry's download URL; an entry that is not a file is
    refused without a request; the only exception is the one
    [requests.get] raises for an entry without a URL; an answer other than
    200 gives [None]; and a returned name always ends in [.json] and comes
    from a file entry answered with 200. *)
Theorem download_file_effects `{PyLib} (w : World) (it : item) (ft : string)
    (st : state) :
  let run := download_file w it ft st in
  files (snd run) = files st /\ dirs (snd run) = dirs st /\
  (trace (snd run) = trace st \/
   exists u, download_url it = Some u /\ trace (snd run) = EvGet u :: trace st) /\
  (type it <> "file" -> run = (Ok None, st)) /\
  ((exists r, fst run = Ok r) \/
   (fst run = Raise MissingSchema /\ download_url it = None /\ snd run = st)) /\
  (forall u status body,
      download_url it = Some u -> raw w u = (status, body) -> status <> 200 ->
      fst run = Ok None) /\
  (forall n v,
      fst run = Ok (Some (n, v)) ->
      type it = "file" /\ endswith n ".json" = true /\
      exists u body, download_url it = Some u /\ raw w u = (200, body)).
Proof. apply download_file_run. Qed.

End GithubEffectClaims.

Section GithubCounters.
Import PyStr PosixPath GithubCrawler.
Context `{PyLib} (w : World).

Lemma fetched_cons (e : event) (tr : list event) :
  length (fetched (e :: tr))
  = (match e with EvGet _ => 1 | _ => 0 end + length (fetched tr))%nat.
Proof. now destruct e. Qed.

Lemma writes_cons (e : event) (tr : list event) :
  length (writes (e :: tr))
  = (match e with EvWrite _ _ => 1 | _ => 0 end + length (writes tr))%nat.
Proof. now destruct e. Qed.

Lemma process_items_counts (recurse : string -> M (Z * Z))
    (path out : string) (recursive : bool) (ft : string) :
  (forall sub st t d st', recurse sub st = (Ok (t, d), st') -> counted st st' t d) ->
  forall items t0 d0 st t d st',
    process_items w recurse path out recursive ft items t0 d0 st = (Ok (t, d), st') ->
    counted st st' (t - t0) (d - d0).
Proof.
  intros Hrec. induction items as [|it items IH]; intros t0 d0 st t d st' Hrun.
  - cbn in Hrun. injection Hrun as <- <- <-. unfold counted. lia.
  - cbn [process_items] in Hrun.
    destruct (String.eqb (type it) "file") eqn:Htype.
    + apply String.eqb_eq in Htype.
      destruct (wanted ft it) eqn:Hwant; [|now apply IH in Hrun].
      unfold bind at 1 in Hrun.
      destruct (download_file w it ft st) as [r1 st1] eqn:Hdl.
      destruct r1 as [fd| |]; [|discriminate..].
      destruct (download_file_wanted w it ft st st1 fd Htype Hwant Hdl)
        as (u & Hu & ->).
      destruct fd as [[fname content]|].
      * unfold bind at 1 in Hrun. cbn [write_file] in Hrun.
        apply IH in Hrun. unfold counted in *. cbn [trace] in *.
        rewrite !fetched_cons, !writes_cons in Hrun. cbv beta iota in Hrun. lia.
      * apply IH in Hrun. unfold counted in *. cbn [trace] in *.
        rewrite !fetched_cons, !writes_cons in Hrun. cbv beta iota in Hrun. lia.
    + destruct (recursive && String.eqb (type it) "dir"); [|now apply IH in Hrun].
      unfold bind at 1 in Hrun.
      destruct (recurse _ st) as [r1 st1] eqn:Hsub.
      destruct r1 as [[t1 d1]| |]; [|discriminate..].
      apply Hrec in Hsub. apply IH in Hrun. unfold counted in *. lia.
Qed.

Lemma process_directory_counts (owner repo out ft : string) (recursive : bool)
    (fuel : nat) :
  forall path st t d st',
    process_directory w fuel owner repo path out recursive ft st = (Ok (t, d), st') ->
    counted st st' t d.
Proof.
  induction fuel as [|fuel IH]; intros path st t d st' Hrun; [discriminate|].
  cbn [process_directory] in Hrun. unfold bind at 1 in Hrun.
  destruct (get_repo_contents w owner repo path st) as [r1 st1] eqn:Hget.
  destruct r1 as [contents| |]; [|discriminate..].
  assert (Hst1 : st1 = State (files st) (dirs st)
                         (EvList (contents_url owner repo path) :: trace st)).
  { revert Hget. unfold get_repo_contents, bind, emit, raise_for_status, raise, ret.
    repeat case_match; intros Heq; now simplify_eq. }
  subst st1. apply process_items_counts in Hrun; [|intros sub; apply IH].
  unfold counted in *. cbn [trace] in *.
  rewrite !fetched_cons, !writes_cons in Hrun. cbv beta iota in Hrun. lia.
Qed.

End GithubCounters.

Section GithubCounterClaims.
Import PyStr PosixPath GithubCrawler.

(** X3. Whenever [process_directory] returns its pair
    [(total_files, downloaded_files)], in any world and with or without
    recursion: [0 <= downloaded_files <= total_files]; the run sent exactly
    [total_files] download requests and wrote exactly [downloaded_files]
    files. *)
Theorem process_directory_counters `{PyLib} (w : World)
    (owner repo path out ft : string) (recursive : bool) (fuel : nat)
    (st st' : state) (t d : Z) :
  process_directory w fuel owner repo path out recursive ft st = (Ok (t, d), st') ->
  0 <= d <= t /\
  Z.of_nat (length (fetched (trace st')))
  = Z.of_nat (length (fetched (trace st))) + t /\
  Z.of_nat (length (writes (trace st')))
  = Z.of_nat (length (writes (trace st))) + d.
Proof. apply process_directory_counts. Qed.

Lemma process_directory_counters_witness :
  let st' := snd (process_directory Demo.tree_world 3 "o" "r" "" "out" true "json"
                    Demo.empty_state) in
  length (fetched (trace st')) = 3%nat /\ length (writes (trace st')) = 2%nat.
Proof.
  intros st'.
  destruct (process_directory_counters Demo.tree_world "o" "r" "" "out" "json" true 3
              Demo.empty_state st' 3 2) as (_ & Hf & Hw).
  - apply injective_projections; [vm_compute; reflexivity | reflexivity].
  - cbn in Hf, Hw. split; lia.
Defined.

End GithubCounterClaims.

Section GithubFlat.
Import PyStr PosixPath GithubCrawler.
Context `{PyLib} (w : World).

(** Without recursion the loop never calls [process_directory] again and
    never reads the directory path. *)
Lemma process_items_flat (rec1 rec2 : string -> M (Z * Z))
    (path1 path2 out ft : string) :
  forall items t d st,
    process_items w rec1 path1 out false ft items t d st
    = process_items w rec2 path2 out false ft items t d st.
Proof.
  intros items t d st. reflexivity.
Qed.

(** It lists nothing and cannot run out of recursion budget. *)
Lemma process_items_flat_run (recurse : string -> M (Z * Z)) (path out ft : string) :
  forall items t d st r st',
    process_items w recurse path out false ft items t d st = (r, st') ->
    r <> Diverge /\
    listed (trace st') = listed (trace st) /\
    forall t' d', r = Ok (t', d') ->
      t' = t + Z.of_nat (length (List.filter
             (fun it => String.eqb (type it) "file" && wanted ft it) items)).
Proof.
  induction items as [|it items IH]; intros t d st r st' Hrun.
  - cbn in Hrun. injection Hrun as <- <-. split; [discriminate|].
    split; [reflexivity|]. intros t' d' [= <- <-]. cbn. lia.
  - cbn [process_items andb List.filter] in *.
    destruct (String.eqb (type it) "file") eqn:Htype; cbn [andb].
    2:{ now apply IH in Hrun. }
    destruct (wanted ft it) eqn:Hwant.
    2:{ now apply IH in Hrun. }
    unfold bind at 1 in Hrun.
    destruct (download_file w it ft st) as [r1 st1] eqn:Hdl.
    pose proof (download_file_run w it ft st) as (_ & _ & Htr & _ & Hres & _).
    rewrite Hdl in Htr, Hres. cbn [fst snd] in Htr, Hres.
    assert (Hl1 : listed (trace st1) = listed (trace st)).
    { destruct Htr as [->|(u & _ & ->)]; reflexivity. }
    destruct Hres as [[fd ->]|(-> & _ & _)].
    2:{ injection Hrun as <- <-. split; [discriminate|]. split; [exact Hl1|].
        intros t' d' Hr. discriminate Hr. }
    destruct fd as [[fname content]|].
    + unfold bind at 1 in Hrun. cbn [write_file] in Hrun.
      apply IH in Hrun as (Hd & Hl & Ht).
      cbn [trace] in Hl. split; [exact Hd|]. split.
      * rewrite Hl. cbn. exact Hl1.
      * intros t' d' Hr. rewrite (Ht t' d' Hr). cbn [length]. lia.
    + apply IH in Hrun as (Hd & Hl & Ht).
      split; [exact Hd|]. split; [now rewrite Hl|].
      intros t' d' Hr. rewrite (Ht t' d' Hr). cbn [length]. lia.
Qed.

End GithubFlat.

Section GithubFlatClaims.
Import PyStr PosixPath GithubCrawler.

(** X4. With [recursive=False], [process_directory] makes no recursive
    call: it sends exactly one listing request, whatever the listing holds
    and however the run ends; directory entries are skipped, so a run that
    returns has counted exactly the wanted file entries of that one
    listing; and the loop over the entries does not depend on the
    directory path. *)
Theorem non_recursive_single_listing `{PyLib} (w : World)
    (owner repo path out ft : string) (fuel : nat) (st : state) :
  let run := process_directory w (S fuel) owner repo path out false ft st in
  run = process_directory w 1 owner repo path out false ft st /\
  fst run <> Diverge /\
  listed (trace (snd run)) = contents_url owner repo path :: listed (trace st) /\
  (forall t d, fst run = Ok (t, d) ->
     t = Z.of_nat (length (List.filter
           (fun it => String.eqb (type it) "file" && wanted ft it)
           (snd (list_dir w (contents_url owner repo path)))))) /\
  (forall rec1 rec2 path1 path2 items t d st0,
     process_items w rec1 path1 out false ft items t d st0
     = process_items w rec2 path2 out false ft items t d st0).
Proof.
  cbv zeta. split; [reflexivity|].
  cbn [process_directory]. unfold bind at 1 2 3.
  assert (Hget : exists r1,
    get_repo_contents w owner repo path st
    = (r1, State (files st) (dirs st) (EvList (contents_url owner repo path) :: trace st))
    /\ r1 <> Diverge /\
    forall contents, r1 = Ok contents ->
      contents = snd (list_dir w (contents_url owner repo path))).
  { unfold get_repo_contents, bind, emit, raise_for_status, raise, ret.
    destruct (list_dir w (contents_url owner repo path)) as [status body].
    repeat case_match; simplify_eq; eexists; (split; [reflexivity|]);
      (split; [discriminate|]); intros contents Heq; now simplify_eq. }
  destruct Hget as (r1 & -> & Hnd & Hbody).
  destruct r1 as [contents| |]; [|cbn..].
  - destruct (process_items w _ path out false ft contents 0 0 _) as [r st'] eqn:Hrun.
    apply process_items_flat_run in Hrun as (Hd & Hl & Ht). cbn [fst snd].
    split; [exact Hd|]. split; [exact Hl|]. split; [|reflexivity].
    intros t d Hr. rewrite (Ht t d Hr), (Hbody contents eq_refl). lia.
  - split; [discriminate|]. split; [reflexivity|]. split; [|reflexivity].
    intros t d Hr. discriminate Hr.
  - now contradiction Hnd.
Qed.

End GithubFlatClaims.

(** ** The web-page crawler: file names, repeated downloads, failing pages *)

Section Sanitize.
Import PyStr PosixPath ComfyCrawler.








End Sanitize.

Section DownloadImage.
Import PyStr PosixPath ComfyCrawler.
Context `{PyLib} (w : World).






End DownloadImage.

Section DownloadImageClaims.
Import PyStr PosixPath ComfyCrawler.



End DownloadImageClaims.

Section Pages.
Import PyStr PosixPath ComfyCrawler.
Context `{PyLib} (w : World).

(** One example page: an error is reported and skipped. *)
Lemma visit_pages_cons (page_url : string) (rest image_urls : list string)
    (st : state) :
  exists tr,
    visit_pages w (page_url :: rest) image_urls st
    = visit_pages w rest
        (image_urls ++ pages_yield w [page_url])
        (State (files st) (dirs st) (tr ++ EvPage page_url :: trace st)) /\
    pages_fetched tr = [] /\ writes tr = [].
Proof.
  cbn [visit_pages]. unfold pages_yield, page_ok. cbn [flat_map].
  unfold bind at 1. unfold catch, bind, emit, raise_for_status, raise, ret.
  cbn [files dirs trace].
  destruct (page w page_url) as [status soup]. cbn [fst snd].
  destruct ((400 <=? status) && (status <? 600)); cbn [negb].
  - exists [EvPrint ("Error processing page " +:+ page_url)].
    now rewrite !app_nil_r.
  - exists []. now rewrite app_nil_r.
Qed.

Lemma pages_yield_cons (u : string) (pages : list string) :
  pages_yield w (u :: pages) = pages_yield w [u] ++ pages_yield w pages.
Proof. unfold pages_yield. cbn [flat_map]. now rewrite app_nil_r. Qed.

Lemma pages_fetched_app (a b : list event) :
  pages_fetched (a ++ b) = pages_fetched a ++ pages_fetched b.
Proof. unfold pages_fetched. apply omap_app. Qed.

Lemma visit_pages_run (pages : list string) :
  forall image_urls st,
    exists st',
      visit_pages w pages image_urls st
      = (Ok (image_urls ++ pages_yield w pages), st') /\
      pages_fetched (trace st') = rev pages ++ pages_fetched (trace st) /\
      files st' = files st /\ dirs st' = dirs st /\
      writes (trace st') = writes (trace st).
Proof.
  induction pages as [|u pages IH]; intros image_urls st.
  - exists st. cbn. now rewrite app_nil_r.
  - destruct (visit_pages_cons u pages image_urls st) as (tr & -> & Htr & Hwr).
    destruct (IH (image_urls ++ pages_yield w [u])
                (State (files st) (dirs st) (tr ++ EvPage u :: trace st)))
      as (st' & -> & Hp & Hf & Hd & Hw).
    exists st'. cbn [files dirs trace] in *.
    rewrite (pages_yield_cons u pages), app_assoc. split; [reflexivity|].
    split; [|split; [exact Hf|split; [exact Hd|]]].
    + rewrite Hp, pages_fetched_app, Htr. cbn. now rewrite <- app_assoc.
    + rewrite Hw. unfold writes in *. rewrite omap_app, Hwr. reflexivity.
Qed.

End Pages.

Section Crawl.
Import PyStr PosixPath ComfyCrawler.
Context `{PyLib} (w : World).




End Crawl.

Section CrawlClaims.
Import PyStr PosixPath ComfyCrawler.

(** X7. The loop of [crawl_images] over the example pages visits every
    page once, in order, whatever the pages answer: a page that answers
    with an HTTP error is reported and skipped, the images found before it
    are kept and the pages after it are still read.  The loop writes no
    file. *)
Theorem failing_page_is_skipped `{PyLib} (w : World)
    (pages image_urls : list string) (st : state) :
  exists st',
    visit_pages w pages image_urls st
    = (Ok (image_urls ++ pages_yield w pages), st') /\
    pages_fetched (trace st') = rev pages ++ pages_fetched (trace st) /\
    files st' = files st /\ dirs st' = dirs st /\
    writes (trace st') = writes (trace st).
Proof. apply visit_pages_run. Qed.


End CrawlClaims.

(** ** Metadata fields and the loops over local images *)

Section Shadowing.
Import PyStr PosixPath.

(** X9. The [parameters] field is looked at first and alone: when an image
    has it, and its text is empty or is not JSON, all three extractors find
    nothing (the one of [parse_workflow_templates] raises), although the
    image also carries a [workflow] field holding a usable workflow. *)
Theorem parameters_shadow_workflow `{PyLib}
    (image_data p wf : string) (info : gmap string string) (v : json) :
  image_info image_data = Some info ->
  info !! "parameters" = Some p ->
  info !! "workflow" = Some wf ->
  json_loads wf = Some v ->
  json_truthy v = true ->
  truthy p = false \/ json_loads p = None ->
  GithubCrawler.extract_workflow_from_image image_data = None /\
  (forall image_path st,
      files st !! image_path = Some image_data ->
      ComfyCrawler.extract_workflow_from_image image_path st = None) /\
  (forall st,
      ParseTemplates.extract_workflow_from_image image_data st
      = (Raise (NameError "logger"), st)).
Proof.
  intros Hinfo Hp _ _ _ Hbad.
  assert (Hpay : embedded_payload image_data = Some p).
  { unfold embedded_payload. now rewrite Hinfo, Hp. }
  split; [|split].
  - rewrite github_extract_payload, Hpay.
    destruct Hbad as [->| ->]; [reflexivity | now destruct (truthy p)].
  - intros image_path st Hf. rewrite (comfy_extract_payload _ _ _ Hf), Hpay.
    destruct Hbad as [->| ->]; [reflexivity | now destruct (truthy p)].
  - intros st. rewrite templates_extract_payload, Hpay.
    destruct Hbad as [->| ->]; [reflexivity | now destruct (truthy p)].
Qed.

Lemma parameters_shadow_workflow_witness :
  @GithubCrawler.extract_workflow_from_image records_lib two_field_image = None /\
  @GithubCrawler.extract_workflow_from_image records_lib Demo.list_image
  = Some (JArr [JInt 1; JInt 2]).
Proof.
  split; [|vm_compute; reflexivity].
  refine (proj1 (@parameters_shadow_workflow records_lib two_field_image
                   "Steps: 20, Sampler: Euler" "[1, 2]"
                   {[ "parameters" := "Steps: 20, Sampler: Euler";
                      "workflow" := "[1, 2]" ]}
                   (JArr [JInt 1; JInt 2]) _ _ _ _ _ _)).
  - vm_compute. reflexivity.
  - vm_compute. reflexivity.
  - vm_compute. reflexivity.
  - vm_compute. reflexivity.
  - reflexivity.
  - right. vm_compute. reflexivity.
Defined.

End Shadowing.

Section TemplatesLoop.
Import PyStr PosixPath ParseTemplates.

Lemma main_loop_skips `{PyLib} (pre rest : list string) (st : state) :
  Forall (fun n => endswith (lower n) ".png" = false) pre ->
  main_loop (pre ++ rest) st = main_loop rest st.
Proof.
  induction 1 as [|n pre Hn _ IH]; [reflexivity|].
  cbn [app main_loop]. now rewrite Hn.
Qed.

(** X10. [parse_workflow_templates.main] stops at the first PNG without a
    usable payload: names that do not end in [.png] are skipped, and for
    the first PNG whose metadata is missing, empty or not JSON the
    undefined [logger] raises [NameError] out of the loop; nothing is
    written for it and the names after it are never processed. *)
Theorem templates_loop_stops_at_first_failure `{PyLib}
    (pre rest : list string) (filename image_data : string) (st : state) :
  Forall (fun n => endswith (lower n) ".png" = false) pre ->
  endswith (lower filename) ".png" = true ->
  files st !! join template_dir filename = Some image_data ->
  match embedded_payload image_data with
  | Some d => if truthy d then json_loads d else None
  | None => None
  end = None ->
  main_loop (pre ++ filename :: rest) st
  = (Raise (NameError "logger"),
     State (files st) (dirs st)
       (EvPrint ("Processing " +:+ filename +:+ "...") :: trace st)).
Proof.
  intros Hpre Hpng Hfile Hnone. rewrite (main_loop_skips _ _ _ Hpre).
  cbn [main_loop]. rewrite Hpng.
  unfold bind at 1. cbn [emit]. unfold bind at 1. cbn [files].
  rewrite Hfile. cbn [default]. unfold id, bind at 1.
  rewrite templates_extract_payload.
  destruct (embedded_payload image_data) as [d|]; [|reflexivity].
  destruct (truthy d); [|reflexivity].
  now rewrite Hnone.
Qed.

Lemma templates_loop_stops_at_first_failure_witness :
  let st := State {[ "tools/workflow_templates/a.png" := "workflow" +:+ Demo.nul +:+ "oops";
                     "tools/workflow_templates/b.png" := Demo.list_image ]} ∅ [] in
  main_loop ["notes.txt"; "a.png"; "b.png"] st
  = (Raise (NameError "logger"), State (files st) ∅ [EvPrint "Processing a.png..."]) /\
  main_loop ["b.png"] st
  = (Ok tt,
     State (<["tools/workflow_templates/b_metadata.json" := json_dumps (JArr [JInt 1; JInt 2])]>
              (files st)) ∅
       [EvPrint "Saved metadata to b_metadata.json";
        EvWrite "tools/workflow_templates/b_metadata.json"
          (json_dumps (JArr [JInt 1; JInt 2]));
        EvPrint "Processing b.png..."]).
Proof.
  intros st. split; [|vm_compute; reflexivity].
  apply (templates_loop_stops_at_first_failure ["notes.txt"] ["b.png"] "a.png"
           ("workflow" +:+ Demo.nul +:+ "oops") st).
  - repeat constructor.
  - reflexivity.
  - reflexivity.
  - vm_compute. reflexivity.
Defined.

End TemplatesLoop.

Section JoinFacts.
Import PyStr PosixPath.








End JoinFacts.

Section SaveAll.
Import PyStr PosixPath ComfyCrawler.
Context `{PyLib}.






End SaveAll.

Section SaveAllClaims.
Import PyStr PosixPath ComfyCrawler.




End SaveAllClaims.

(** ** The catalog client: what a search sends, and how failures end *)

Section SearchParams.
Import PyStr Civitai.

Lemma split_cons (s : string) (c : ascii) : exists x l, split s c = x :: l.
Proof.
  induction s as [|a s (x & l & IH)]; cbn -[Ascii.eqb]; [now eexists _, _|].
  destruct (Ascii.eqb a c); [now eexists _, _|]. rewrite IH. now eexists _, _.
Qed.

Lemma comma_join_cons (x : string) (l : list string) :
  comma_join (x :: l)
  = match l with [] => x | _ => x +:+ "," +:+ comma_join l end.
Proof. reflexivity. Qed.

Lemma comma_join_head (a : ascii) (x : string) (l : list string) :
  comma_join (String a x :: l) = String a (comma_join (x :: l)).
Proof. rewrite !comma_join_cons. destruct l; [reflexivity|]. now rewrite sapp_cons. Qed.

(** Joining what [split] gave returns the text. *)
Lemma comma_join_split (s : string) : comma_join (split s ",") = s.
Proof.
  induction s as [|a s IH]; [reflexivity|]. cbn -[Ascii.eqb comma_join].
  destruct (Ascii.eqb a ",") eqn:E.
  - apply Ascii.eqb_eq in E as ->. destruct (split_cons s ",") as (x & l & Hs).
    rewrite comma_join_cons, Hs, <- Hs, IH. now rewrite sapp_nil_l.
  - destruct (split_cons s ",") as (x & l & Hs). rewrite Hs in *.
    now rewrite comma_join_head, IH.
Qed.

Lemma set_list_split (key : string) (v : option string) (params : gmap string string) :
  set_list key (split_list v) params = set_str key v params.
Proof.
  unfold set_list, split_list, set_str. destruct v as [s|]; [|reflexivity].
  destruct (truthy s) eqn:Hs; [|reflexivity].
  destruct (split_cons s ",") as (x & l & Hsp).
  pose proof (comma_join_split s) as Hj. rewrite Hsp in *. now rewrite Hj.
Qed.

Lemma param_at_eq (k : string) (v rest : option string) :
  param_at k k v rest = match v with Some s => Some s | None => rest end.
Proof. unfold param_at. now rewrite decide_True. Qed.

Lemma param_at_ne (key k : string) (v rest : option string) :
  key <> k -> param_at key k v rest = rest.
Proof. intros Hne. unfold param_at. now rewrite decide_False. Qed.

Lemma set_str_lookup (key k : string) (v : option string) (m : gmap string string) :
  set_str key v m !! k = param_at key k (sent v) (m !! k).
Proof.
  unfold set_str, sent, param_at. destruct v as [s|]; [destruct (truthy s)|];
    destruct (decide (key = k)) as [->|Hne]; try reflexivity.
  - apply lookup_insert_eq.
  - now apply lookup_insert_ne.
Qed.

Lemma set_int_lookup (key k : string) (v : Z) (m : gmap string string) :
  set_int key v m !! k
  = param_at key k (if v =? 0 then None else Some (pretty v)) (m !! k).
Proof.
  unfold set_int, param_at. destruct (v =? 0);
    destruct (decide (key = k)) as [->|Hne]; try reflexivity.
  - apply lookup_insert_eq.
  - now apply lookup_insert_ne.
Qed.

Lemma set_nsfw_lookup (k : string) (v : option string) (m : gmap string string) :
  match v with Some x => <["nsfw" := x]> m | None => m end !! k
  = param_at "nsfw" k v (m !! k).
Proof.
  unfold param_at.
  destruct v as [x|]; destruct (decide ("nsfw" = k)) as [<-|Hne]; try reflexivity.
  - apply lookup_insert_eq.
  - now apply lookup_insert_ne.
Qed.

(** The parameters of a search, one assignment after the other. *)
Lemma search_params_lookup (o : cli_options) (k : string) :
  search_params (search_args_of o) !! k
  = param_at "username" k (sent (opt_username o))
      (param_at "tags" k (sent (opt_tags o))
         (param_at "baseModels" k (sent (opt_baseModels o))
            (param_at "types" k (sent (opt_types o))
               (param_at "period" k (sent (opt_period o))
                  (param_at "sort" k (sent (opt_sort o))
                     (param_at "nsfw" k (opt_nsfw o)
                        (param_at "page" k
                           (if opt_page o =? 0 then None
                            else Some (pretty (opt_page o)))
                           (param_at "limit" k
                              (if opt_limit o =? 0 then None
                               else Some (pretty (opt_limit o)))
                              (param_at "query" k (sent (opt_query o)) None))))))))).
Proof.
  unfold search_params, search_args_of.
  cbn [query limit page_no nsfw sort period types baseModels tags username].
  rewrite !set_list_split.
  repeat first [rewrite set_str_lookup | rewrite set_nsfw_lookup
               | rewrite set_int_lookup].
  now rewrite lookup_empty.
Qed.

End SearchParams.

Section SearchParamClaims.
Import PyStr Civitai.

(** X13. What a search sends, option by option: [query], [sort], [period]
    and [username] are sent when not empty; [limit] and [page] are dropped
    when 0; [nsfw] is sent whenever it was given, also when empty; the
    comma-separated [types], [baseModels] and [tags], which [main] splits
    and [search_models] joins again, go out as the text that was typed;
    and no other parameter is ever sent. *)
Theorem cli_options_reach_request (o : cli_options) :
  let params := search_params (search_args_of o) in
  params !! "query" = sent (opt_query o) /\
  params !! "limit"
  = (if opt_limit o =? 0 then None else Some (pretty (opt_limit o))) /\
  params !! "page"
  = (if opt_page o =? 0 then None else Some (pretty (opt_page o))) /\
  params !! "nsfw" = opt_nsfw o /\
  params !! "sort" = sent (opt_sort o) /\
  params !! "period" = sent (opt_period o) /\
  params !! "types" = sent (opt_types o) /\
  params !! "baseModels" = sent (opt_baseModels o) /\
  params !! "tags" = sent (opt_tags o) /\
  params !! "username" = sent (opt_username o) /\
  (forall l, comma_join (split l ",") = l) /\
  (forall k,
     k ∉ ["query"; "limit"; "page"; "nsfw"; "sort"; "period"; "types";
          "baseModels"; "tags"; "username"] ->
     params !! k = None).
Proof.
  cbv zeta.
  repeat (split;
    [rewrite search_params_lookup;
     repeat first [rewrite param_at_eq | rewrite param_at_ne by discriminate];
     repeat case_match; congruence|]).
  split; [apply comma_join_split|].
  intros k Hk. rewrite search_params_lookup.
  repeat (rewrite param_at_ne;
          [|intros <-; apply Hk;
            repeat first [apply list_elem_of_here | apply list_elem_of_further]]).
  reflexivity.
Qed.

End SearchParamClaims.

Section CatalogFailures.
Import PyStr PosixPath Civitai.

(** X14. How a failed request ends, with a key configured.  A failed
    search ends the program with exit status 1, after that one request.  A
    failed request for a model given by id is reported, and the program
    then ends with exit status 0.  A failed download returns [None] after
    its one request; no directory is created and no file is written. *)
Theorem catalog_failures `{PyLib} (w : World) (environ : gmap string string)
    (k : string) (a : cli_args) (st : state) :
  environ !! "CIVITAI_API_KEY" = Some k -> k <> "" ->
  let headers : gmap string string := {[ "Authorization" := "Bearer " +:+ k ]} in
  (arg_model_id a = None \/ arg_model_id a = Some 0 ->
   400 <= fst (api_get w "https://civitai.com/api/v1/models"
                 (search_params (arg_search a)) headers) < 600 ->
     fst (main w environ a st) = Raise (SystemExit 1) /\
     api_requests (trace (snd (main w environ a st)))
     = ("https://civitai.com/api/v1/models", search_params (arg_search a), headers)
       :: api_requests (trace st)) /\
  (forall model_id, arg_model_id a = Some model_id -> model_id <> 0 ->
   400 <= fst (api_get w ("https://civitai.com/api/v1/models/" +:+ pretty model_id)
                 ∅ headers) < 600 ->
     fst (main w environ a st) = Raise (SystemExit 0) /\
     api_requests (trace (snd (main w environ a st)))
     = ("https://civitai.com/api/v1/models/" +:+ pretty model_id, ∅, headers)
       :: api_requests (trace st)) /\
  (forall url output_dir filename now,
   400 <= fst (raw w url) < 600 ->
     let run := download_model_file w url output_dir filename now st in
     fst run = Ok None /\
     files (snd run) = files st /\ dirs (snd run) = dirs st /\
     GithubCrawler.fetched (trace (snd run)) = url :: GithubCrawler.fetched (trace st)).
Proof.
  intros Hkey Hne headers.
  pose proof (get_api_key_present environ k st Hkey Hne) as Hk.
  split; [|split].
  - intros Hid Hst. unfold main. rewrite (bind_ok _ _ _ _ _ Hk).
    assert (Hsearch :
      search_models w (arg_search a) (Some k) st
      = (Raise (SystemExit 1),
         State (files st) (dirs st)
           (EvPrint "Error during API request"
            :: EvApi "https://civitai.com/api/v1/models"
                 (search_params (arg_search a)) headers :: trace st))).
    { unfold search_models. rewrite (auth_headers_key k Hne). fold headers.
      unfold bind at 1. cbn [emit].
      destruct (api_get w _ _ _) as [status body]. cbn [fst] in Hst.
      assert (Herr : (400 <=? status) && (status <? 600) = true) by lia.
      now rewrite Herr. }
    destruct Hid as [Hm | Hm]; rewrite Hm; cbn [Z.eqb]; unfold bind;
      rewrite Hsearch; split; reflexivity.
  - intros model_id Hm Hid Hst. unfold main. rewrite (bind_ok _ _ _ _ _ Hk), Hm.
    apply Z.eqb_neq in Hid. rewrite Hid.
    assert (Hmodel :
      get_model_versions w model_id (Some k) st
      = (Ok None,
         State (files st) (dirs st)
           (EvPrint "Error fetching model details"
            :: EvApi ("https://civitai.com/api/v1/models/" +:+ pretty model_id)
                 ∅ headers :: trace st))).
    { unfold get_model_versions. rewrite (auth_headers_key k Hne). fold headers.
      unfold bind at 1. cbn [emit].
      destruct (api_get w _ _ _) as [status body]. cbn [fst] in Hst.
      assert (Herr : (400 <=? status) && (status <? 600) = true) by lia.
      now rewrite Herr. }
    unfold bind. rewrite Hmodel. split; reflexivity.
  - intros url output_dir filename now Hst. cbv zeta. unfold download_model_file.
    unfold bind at 1. cbn [emit]. unfold bind at 1. cbn [emit].
    destruct (raw w url) as [status body]. cbn [fst] in Hst.
    assert (Herr : (400 <=? status) && (status <? 600) = true) by lia.
    rewrite Herr. now repeat split.
Qed.

Lemma catalog_failures_witness :
  fst (main Demo.tree_world {[ "CIVITAI_API_KEY" := "secret" ]}
         (CliArgs (Some 7) (SearchArgs None 10 1 None None None None None None None))
         Demo.empty_state)
  = Raise (SystemExit 0) /\
  fst (main Demo.tree_world {[ "CIVITAI_API_KEY" := "secret" ]}
         (CliArgs None (SearchArgs None 10 1 None None None None None None None))
         Demo.empty_state)
  = Raise (SystemExit 1).
Proof.
  split.
  - refine (proj1 (proj1 (proj2 (catalog_failures Demo.tree_world
      {[ "CIVITAI_API_KEY" := "secret" ]} "secret"
      (CliArgs (Some 7) (SearchArgs None 10 1 None None None None None None None))
      Demo.empty_state _ _)) 7 _ _ _)).
    + reflexivity.
    + discriminate.
    + reflexivity.
    + discriminate.
    + cbn. lia.
  - vm_compute. reflexivity.
Defined.

End CatalogFailures.

(** ** The hosted-tree crawler flattens the tree *)

Section Flatten.
Import PyStr PosixPath GithubCrawler.





End Flatten.

(** ** How the hosted-tree crawler can fail, and a whole run *)

Section GithubErrors.
Import PyStr PosixPath GithubCrawler.
Context `{PyLib} (w : World).






End GithubErrors.

Section GithubMain.
Import PyStr PosixPath GithubCrawler.




End GithubMain.

Section GithubMainRun.
Import PyStr PosixPath GithubCrawler.



End GithubMainRun.
